(** * Email domain checker: extraction of the root domain and WHOIS summary

    Shallow embedding of [sample.py].  The two functions of the script,
    [extract_domain_from_email] and [get_domain_history], are embedded in a
    small exception monad; the Streamlit calls of the page body are embedded
    as a log of emitted widgets.  The two third-party packages ([tldextract]
    and [whois]) are interfaces (type classes): the script only calls them.

    Strings are sequences of 8-bit characters; the one non-ASCII literal of
    the script (the dash shown for an empty field) is spelled by its UTF-8
    bytes. *)

From Stdlib Require Import String Ascii List Bool Arith ZArith Lia.
Import ListNotations.

Open Scope string_scope.

(* ================================================================== *)
(** ** Python values and exceptions *)

Module Py.

(** Exceptions derived from Python's [Exception].  [IndexError] is what
    indexing a list out of range raises; [LibraryError] stands for any
    exception class raised inside a third-party package, with the text
    that [str(e)] gives. *)
Inductive exn : Type :=
| IndexError (msg : string)
| LibraryError (cls : string) (msg : string).

(** [str(e)] *)
Definition exn_str (e : exn) : string :=
  match e with
  | IndexError msg => msg
  | LibraryError _ msg => msg
  end.

(** Outcome of evaluating an expression or a call: a value, or an
    exception travelling up the stack. *)
Inductive result (A : Type) : Type :=
| Return (a : A)
| Raise (e : exn).
Arguments Return {A} a.
Arguments Raise {A} e.

Definition bind {A B : Type} (m : result A) (k : A -> result B) : result B :=
  match m with
  | Return a => k a
  | Raise e => Raise e
  end.

(** [try: body except Exception: handler] *)
Definition try_except {A : Type} (body : result A) (handler : exn -> result A)
  : result A :=
  match body with
  | Return a => Return a
  | Raise e => handler e
  end.

(** [l[i]] on a list *)
Definition getitem {A : Type} (l : list A) (i : nat) : result A :=
  match nth_error l i with
  | Some x => Return x
  | None => Raise (IndexError "list index out of range")
  end.

(** Truth value of a [str]: false exactly for the empty string. *)
Definition str_truthy (s : string) : bool :=
  match s with
  | EmptyString => false
  | String _ _ => true
  end.

(** [s.split(sep)] for a one-character separator: the pieces between the
    occurrences of [sep], in order; never an empty list. *)
Fixpoint split (sep : ascii) (s : string) : list string :=
  match s with
  | EmptyString => [EmptyString]
  | String c s' =>
      if Ascii.eqb c sep then EmptyString :: split sep s'
      else match split sep s' with
           | [] => [String c EmptyString]
           | piece :: pieces => String c piece :: pieces
           end
  end.

(** [sep.join(l)] *)
Fixpoint join (sep : string) (l : list string) : string :=
  match l with
  | [] => EmptyString
  | [x] => x
  | x :: rest => x ++ sep ++ join sep rest
  end.

(** Number of occurrences of a character, and the test [c in s]. *)
Fixpoint count (c : ascii) (s : string) : nat :=
  match s with
  | EmptyString => 0
  | String c' s' => (if Ascii.eqb c' c then 1 else 0) + count c s'
  end.

Fixpoint contains (c : ascii) (s : string) : bool :=
  match s with
  | EmptyString => false
  | String c' s' => Ascii.eqb c' c || contains c s'
  end.

(** [list(s)] for a [str]: its characters, each a one-character string
    (one per 8-bit character: a character beyond ASCII counts as the
    several bytes of its encoding). *)
Fixpoint chars (s : string) : list string :=
  match s with
  | EmptyString => []
  | String c s' => String c EmptyString :: chars s'
  end.

End Py.

Import Py.

Notation "x <- m ;; k" := (bind m (fun x => k))
  (at level 61, m at next level, right associativity).

Definition at_sign : ascii := "@"%char.

(* ================================================================== *)
(** ** The public-suffix collaborator ([tldextract]) *)

(** [tldextract.ExtractResult]: the three components the script reads. *)
Record ExtractResult : Type := mkExtractResult {
  ext_subdomain : string;
  ext_domain : string;
  ext_suffix : string
}.

(** [tldextract.extract]: any call into the package may raise. *)
Class TldExtract : Type := {
  tldextract_extract : string -> result ExtractResult
}.

(** What the script relies on from the package: it answers every host
    string, and the components it cuts out of a string without [@] hold
    no [@] either. *)
Class TldExtractLaws (T : TldExtract) : Prop := {
  extract_returns : forall s, exists r, tldextract_extract s = Return r;
  extract_no_at : forall s r,
      tldextract_extract s = Return r ->
      contains at_sign s = false ->
      contains at_sign (ext_domain r) = false /\
      contains at_sign (ext_suffix r) = false
}.

(* ================================================================== *)
(** ** [extract_domain_from_email] (sample.py, lines 14-21) *)

Section Extractor.
Context {T : TldExtract}.

(** Line 16: [email.split("@")[1]]. *)
Definition domain_part (email : string) : result string :=
  getitem (split at_sign email) 1.

(** Line 18: the f-string and the conditional expression. *)
Definition root_domain (ext : ExtractResult) : string :=
  if str_truthy (ext_suffix ext)
  then ext_domain ext ++ "." ++ ext_suffix ext
  else ext_domain ext.

(** The function returns [str | None]: [Some] of the string, or [None]. *)
Definition extract_domain_from_email (email : string) : result (option string) :=
  try_except
    (part <- domain_part email ;;
     ext <- tldextract_extract part ;;
     Return (Some (root_domain ext)))
    (fun _ => Return None).

End Extractor.

(** *** A small public-suffix parser

    An executable instance of the interface: the label-based decomposition
    over a fixed table of suffixes.  It serves to run the script's functions
    on concrete inputs. *)

Module SampleSuffixes.

Definition dot : ascii := "."%char.

Definition known_suffixes : list (list string) :=
  [ ["com"]; ["org"]; ["net"]; ["uk"]; ["co"; "uk"] ].

Fixpoint labels_eqb (a b : list string) : bool :=
  match a, b with
  | [], [] => true
  | x :: a', y :: b' => String.eqb x y && labels_eqb a' b'
  | _, _ => false
  end.

Definition is_suffix (labels : list string) : bool :=
  existsb (labels_eqb labels) known_suffixes.

(** Index of the first label of the longest known suffix; the number of
    labels when there is none. *)
Fixpoint suffix_index (labels : list string) : nat :=
  match labels with
  | [] => 0
  | _ :: rest => if is_suffix labels then 0 else S (suffix_index rest)
  end.

Definition extract (host : string) : ExtractResult :=
  let labels := split dot host in
  let i := suffix_index labels in
  {| ext_subdomain := if (2 <=? i)%nat then join "." (firstn (i - 1) labels) else "";
     ext_domain := match i with
                   | 0 => ""
                   | S j => nth j labels ""
                   end;
     ext_suffix := if (i =? length labels)%nat then "" else join "." (skipn i labels) |}.

Definition sample_tld : TldExtract :=
  {| tldextract_extract := fun host => Return (extract host) |}.

End SampleSuffixes.

(* ================================================================== *)
(** ** Dates: [datetime] and [strftime("%d %B %Y")] *)

(** A [datetime.datetime] value.  Python keeps [1 <= year <= 9999],
    [1 <= month <= 12] and the day within the month. *)
Record datetime : Type := mkDatetime {
  dt_year : Z;
  dt_month : Z;
  dt_day : Z;
  dt_hour : Z;
  dt_minute : Z;
  dt_second : Z
}.

Definition datetime_valid (d : datetime) : Prop :=
  (1 <= dt_year d <= 9999 /\ 1 <= dt_month d <= 12 /\ 1 <= dt_day d <= 31)%Z.

Definition month_names : list string :=
  [ "January"; "February"; "March"; "April"; "May"; "June"; "July";
    "August"; "September"; "October"; "November"; "December" ].

(** [%B]: full month name (C locale). *)
Definition month_name (m : Z) : string := nth (Z.to_nat (m - 1)) month_names "".

Definition digit (n : Z) : ascii := ascii_of_nat (Z.to_nat (48 + n mod 10)).

(** [%d]: day of the month, zero-padded to two digits. *)
Definition two_digits (n : Z) : string :=
  String (digit (n / 10)) (String (digit n) EmptyString).

(** The four digits of a number from 1000 to 9999. *)
Definition four_digits (n : Z) : string :=
  String (digit (n / 1000))
    (String (digit (n / 100)) (String (digit (n / 10)) (String (digit n) EmptyString))).

(** [%Y]: the year in decimal.  CPython hands the code to the C library,
    which prints the number as it is: four digits from the year 1000 on,
    and no zeros in front of an earlier year ([999], not [0999]). *)
Definition year_digits (n : Z) : string :=
  if (n <? 10)%Z then String (digit n) EmptyString
  else if (n <? 100)%Z then two_digits n
  else if (n <? 1000)%Z
       then String (digit (n / 100)) (String (digit (n / 10)) (String (digit n) EmptyString))
       else four_digits n.

(** [d.strftime("%d %B %Y")]; the time of day is not printed. *)
Definition strftime_d_B_Y (d : datetime) : string :=
  two_digits (dt_day d) ++ " " ++ month_name (dt_month d) ++ " " ++ year_digits (dt_year d).

(** Reading a decimal numeral back (used to state what the format holds). *)
Definition digit_value (c : ascii) : Z := Z.of_nat (nat_of_ascii c) - 48.

Fixpoint decimal_acc (acc : Z) (s : string) : Z :=
  match s with
  | EmptyString => acc
  | String c s' => decimal_acc (10 * acc + digit_value c) s'
  end.

Definition decimal (s : string) : Z := decimal_acc 0 s.

(* ================================================================== *)
(** ** The WHOIS collaborator ([whois]) *)

(** An attribute of the response object: not there at all, there with the
    value [None], or there with a value. *)
Inductive attr (A : Type) : Type :=
| Missing
| IsNone
| Has (v : A).
Arguments Missing {A}.
Arguments IsNone {A}.
Arguments Has {A} v.

(** A date as the package hands it over: a parsed [datetime], or the
    registry's text when it could not be parsed. *)
Inductive date_atom : Type :=
| DateStr (s : string)
| DateTime (d : datetime).

(** A date field: one value, or a list of them. *)
Inductive date_value : Type :=
| DateOne (a : date_atom)
| DateList (l : list date_atom).

(** The name-server field: a list of host names, or a lone [str]. *)
Inductive ns_value : Type :=
| NsStr (s : string)
| NsList (l : list string).

(** The response object [w]; [w_str] is what [str(w)] gives. *)
Record WhoisEntry : Type := mkWhoisEntry {
  w_registrar : attr string;
  w_creation_date : attr date_value;
  w_updated_date : attr date_value;
  w_expiration_date : attr date_value;
  w_name_servers : attr ns_value;
  w_str : string
}.

(** [whois.whois]: a network query; it may raise. *)
Class Whois : Type := {
  whois_whois : string -> result WhoisEntry
}.

(** [getattr(w, name, default)]: [None] on the right is Python's [None]. *)
Definition getattr {A : Type} (a : attr A) (default : option A) : option A :=
  match a with
  | Missing => default
  | IsNone => None
  | Has v => Some v
  end.

Definition date_atom_truthy (a : date_atom) : bool :=
  match a with
  | DateStr s => str_truthy s
  | DateTime _ => true
  end.

Definition date_value_truthy (v : date_value) : bool :=
  match v with
  | DateOne a => date_atom_truthy a
  | DateList [] => false
  | DateList (_ :: _) => true
  end.

Definition ns_value_truthy (v : ns_value) : bool :=
  match v with
  | NsStr s => str_truthy s
  | NsList [] => false
  | NsList (_ :: _) => true
  end.

(** Truth value of an optional value ([None] is false). *)
Definition truthy {A : Type} (t : A -> bool) (o : option A) : bool :=
  match o with
  | Some v => t v
  | None => false
  end.

(** [list(v)] *)
Definition py_list (v : ns_value) : list string :=
  match v with
  | NsStr s => chars s
  | NsList l => l
  end.

(* ================================================================== *)
(** ** [get_domain_history] (sample.py, lines 24-48) *)

(** The dictionary [data], with its seven keys. *)
Record DomainInfo : Type := mkDomainInfo {
  domain : string;
  registrar : option string;
  creation_date : option string;
  updated_date : option string;
  expiry_date : option string;
  name_servers : list string;
  raw_whois : string
}.

(** Lines 28-31. *)
Definition _pick_date (d : date_value) : result date_atom :=
  match d with
  | DateList l => getitem l 0
  | DateOne a => Return a
  end.

(** Lines 33-35, for one field:
    [_pick_date(w.f) if getattr(w, "f", None) else None]. *)
Definition pick_field (f : attr date_value) : result (option date_atom) :=
  match getattr f None with
  | Some v =>
      if date_value_truthy v then (d <- _pick_date v ;; Return (Some d))
      else Return None
  | None => Return None
  end.

(** Lines 40-42, for one field:
    [x.strftime("%d %B %Y") if isinstance(x, datetime) else str(x) if x else None]. *)
Definition format_date (x : option date_atom) : option string :=
  match x with
  | Some (DateTime d) => Some (strftime_d_B_Y d)
  | Some (DateStr s) => if str_truthy s then Some s else None
  | None => None
  end.

(** Line 43: [list(getattr(w, "name_servers", []) or [])]. *)
Definition pick_name_servers (f : attr ns_value) : list string :=
  let v := getattr f (Some (NsList [])) in
  py_list (if truthy ns_value_truthy v
           then match v with Some x => x | None => NsList [] end
           else NsList []).

Section Summarizer.
Context {W : Whois}.

Definition get_domain_history (domain : string) : result DomainInfo :=
  w <- whois_whois domain ;;
  created <- pick_field (w_creation_date w) ;;
  updated <- pick_field (w_updated_date w) ;;
  expiry <- pick_field (w_expiration_date w) ;;
  Return {| domain := domain;
            registrar := getattr (w_registrar w) None;
            creation_date := format_date created;
            updated_date := format_date updated;
            expiry_date := format_date expiry;
            name_servers := pick_name_servers (w_name_servers w);
            raw_whois := w_str w |}.

End Summarizer.

(* ================================================================== *)
(** ** The page body (sample.py, lines 63-104) *)

Definition newline : ascii := ascii_of_nat 10.
Definition nl : string := String newline EmptyString.

(** The dash the page shows for an empty field (U+2014, in UTF-8). *)
Definition em_dash : string :=
  String (ascii_of_nat 226) (String (ascii_of_nat 128) (String (ascii_of_nat 148) EmptyString)).

(** [s.strip()]: ASCII white space is removed at both ends.  ([str.strip]
    also removes the white space beyond ASCII, such as U+0085 and U+00A0;
    here these stay in place.) *)
Definition is_space (c : ascii) : bool :=
  let n := nat_of_ascii c in
  ((9 <=? n)%nat && (n <=? 13)%nat) || ((28 <=? n)%nat && (n <=? 32)%nat).

Fixpoint lstrip (s : string) : string :=
  match s with
  | EmptyString => EmptyString
  | String c s' => if is_space c then lstrip s' else s
  end.

Fixpoint rstrip (s : string) : string :=
  match s with
  | EmptyString => EmptyString
  | String c s' =>
      match rstrip s' with
      | EmptyString => if is_space c then EmptyString else String c EmptyString
      | r => String c r
      end
  end.

Definition strip (s : string) : string := rstrip (lstrip s).

(** What the script puts on the page, call by call.  [st.spinner] is
    transient and leaves nothing. *)
#[warnings="-register-all"]
Inductive widget : Type :=
| st_error (msg : string)
| st_success (msg : string)
| st_subheader (text : string)
| st_write (args : list string)
| st_code (body : string)
| st_expander (label : string) (inside : list widget)
| st_download_button (label : string) (data : string) (file_name : string).

(** A run of page code: its outcome and the widgets it emitted.  Widgets
    emitted before an exception stay on the page. *)
Definition ui (A : Type) : Type := (result A * list widget)%type.

Definition ui_ret {A : Type} (a : A) : ui A := (Return a, []).

Definition ui_bind {A B : Type} (m : ui A) (k : A -> ui B) : ui B :=
  match m with
  | (Return a, out) => let (r, out') := k a in (r, (out ++ out')%list)
  | (Raise e, out) => (Raise e, out)
  end.

Definition emit (w : widget) : ui unit := (Return tt, [w]).

(** A call of one of the two functions from page code. *)
Definition call {A : Type} (r : result A) : ui A := (r, []).

(** [try: body except Exception as e: handler] in page code. *)
Definition ui_try {A : Type} (body : ui A) (handler : exn -> ui A) : ui A :=
  match body with
  | (Return a, out) => (Return a, out)
  | (Raise e, out) => let (r, out') := handler e in (r, (out ++ out')%list)
  end.

(** [with st.expander(label): body] *)
Definition within_expander {A : Type} (label : string) (body : ui A) : ui A :=
  let (r, out) := body in (r, [st_expander label out]).

Notation "x <~ m ;; k" := (ui_bind m (fun x => k))
  (at level 61, m at next level, right associativity).
Notation "m >> k" := (ui_bind m (fun _ => k))
  (at level 61, right associativity).

(** [value or "—"] *)
Definition or_dash (o : option string) : string :=
  if truthy str_truthy o
  then match o with Some s => s | None => em_dash end
  else em_dash.

(** [f"{value}"] for a value that is a [str] or [None]. *)
Definition fmt (o : option string) : string :=
  match o with
  | Some s => s
  | None => "None"
  end.

Definition list_truthy {A : Type} (l : list A) : bool :=
  match l with
  | [] => false
  | _ :: _ => true
  end.

(** Lines 91-99: the text offered for download. *)
Definition report_txt (info : DomainInfo) : string :=
  "Domain: " ++ domain info ++ nl ++
  "Registrar: " ++ fmt (registrar info) ++ nl ++
  "Creation date: " ++ fmt (creation_date info) ++ nl ++
  "Last updated: " ++ fmt (updated_date info) ++ nl ++
  "Expiry date: " ++ fmt (expiry_date info) ++ nl ++
  "Name servers: " ++ join ", " (name_servers info) ++ nl ++ nl ++
  "Raw WHOIS:" ++ nl ++ raw_whois info.

(** Lines 76-101: what follows [info = get_domain_history(domain)]. *)
Definition show_summary (domain : string) (info : DomainInfo) : ui unit :=
  emit (st_subheader "Domain History / WHOIS Summary") >>
  emit (st_write ["**Registrar:**"; or_dash (registrar info)]) >>
  emit (st_write ["**Creation date:**"; or_dash (creation_date info)]) >>
  emit (st_write ["**Last updated:**"; or_dash (updated_date info)]) >>
  emit (st_write ["**Expires on:**"; or_dash (expiry_date info)]) >>
  (if list_truthy (name_servers info)
   then emit (st_write ["**Name servers:**"]) >>
        emit (st_write [join ", " (name_servers info)])
   else ui_ret tt) >>
  within_expander "Show raw WHOIS output" (emit (st_code (raw_whois info))) >>
  emit (st_download_button "Download WHOIS report (.txt)"
          (report_txt info) (domain ++ "_whois.txt")).

Section Page.
Context {T : TldExtract} {W : Whois}.

(** Lines 73-104: the guarded lookup. *)
Definition lookup_and_show (domain : string) : ui unit :=
  ui_try
    (info <~ call (get_domain_history domain) ;;
     show_summary domain info)
    (fun e => emit (st_error ("Error fetching WHOIS info: " ++ exn_str e))).

(** Lines 63-104: the button [Check Domain] was pressed. *)
Definition on_check (email : string) : ui unit :=
  if negb (str_truthy email)
  then emit (st_error "Please enter an email address.")
  else
    domain <~ call (extract_domain_from_email (strip email)) ;;
    if truthy str_truthy domain
    then match domain with
         | Some d =>
             emit (st_success ("Extracted domain: **" ++ d ++ "**")) >>
             lookup_and_show d
         | None => ui_ret tt
         end
    else emit (st_error "Could not extract a valid domain from that email.").

End Page.

(** *** A canned WHOIS service

    An executable instance of the interface: it knows one domain, has a
    registry with nothing but a raw text for another, and fails on the
    rest. *)

Module SampleWhois.

Definition example_com : WhoisEntry :=
  {| w_registrar := Has "Example Registrar";
     w_creation_date := Has (DateOne (DateTime (mkDatetime 1995 8 14 4 0 0)));
     w_updated_date := Has (DateList [DateTime (mkDatetime 2024 1 15 0 0 0);
                                      DateTime (mkDatetime 2023 7 9 12 30 0)]);
     w_expiration_date := Has (DateOne (DateStr "before aug-2025"));
     w_name_servers := Has (NsList ["ns1.example.com"; "ns2.example.com"]);
     w_str := "domain_name: EXAMPLE.COM" |}.

Definition thin_entry : WhoisEntry :=
  {| w_registrar := IsNone;
     w_creation_date := Missing;
     w_updated_date := IsNone;
     w_expiration_date := Has (DateList []);
     w_name_servers := IsNone;
     w_str := "No match" |}.

Definition query (domain : string) : result WhoisEntry :=
  if String.eqb domain "example.com" then Return example_com
  else if String.eqb domain "thin.org" then Return thin_entry
  else Raise (LibraryError "PywhoisError" "No whois server is known for this kind of object.").

Definition sample_whois : Whois := {| whois_whois := query |}.

(** A service that answers every query with the same response. *)
Definition always (w : WhoisEntry) : Whois := {| whois_whois := fun _ => Return w |}.

(** A dictionary whose domain runs over two lines. *)
Definition multiline_record : DomainInfo :=
  {| domain := "a" ++ nl ++ "b";
     registrar := None;
     creation_date := None;
     updated_date := None;
     expiry_date := None;
     name_servers := [];
     raw_whois := "" |}.

(** A dictionary as the script builds it for [example.com]. *)
Definition example_record : DomainInfo :=
  {| domain := "example.com";
     registrar := Some "Example Registrar";
     creation_date := Some "14 August 1995";
     updated_date := None;
     expiry_date := None;
     name_servers := ["ns1.example.com"; "ns2.example.com"];
     raw_whois := "domain_name: EXAMPLE.COM" |}.

(** A response whose creation date lies in the year 999. *)
Definition early_year_entry : WhoisEntry :=
  {| w_registrar := IsNone;
     w_creation_date := Has (DateOne (DateTime (mkDatetime 999 1 1 0 0 0)));
     w_updated_date := IsNone;
     w_expiration_date := IsNone;
     w_name_servers := IsNone;
     w_str := "domain_name: EXAMPLE.COM" |}.

(** A response whose creation date is an empty text. *)
Definition blank_date_entry : WhoisEntry :=
  {| w_registrar := Has "Example Registrar";
     w_creation_date := Has (DateOne (DateStr EmptyString));
     w_updated_date := IsNone;
     w_expiration_date := IsNone;
     w_name_servers := Has (NsList ["ns1.example.com"; "ns1.example.com"; "ns0.example.com"]);
     w_str := "domain_name: EXAMPLE.COM" |}.

End SampleWhois.

(* ================================================================== *)
(** ** Definitions that follow the specification's wording

    They are what the statements below compare the script with. *)

(** "Everything after the first [@]". *)
Fixpoint spec_after_first_at (email : string) : option string :=
  match email with
  | EmptyString => None
  | String c rest => if Ascii.eqb c at_sign then Some rest else spec_after_first_at rest
  end.

(** [x] occurs in [s] as a contiguous piece. *)
Definition occurs (x s : string) : Prop :=
  exists before after, s = before ++ x ++ after.

Fixpoint strip_prefix (p s : string) : option string :=
  match p, s with
  | EmptyString, _ => Some s
  | String a p', String b s' => if Ascii.eqb a b then strip_prefix p' s' else None
  | String _ _, EmptyString => None
  end.

Fixpoint first_some {A B : Type} (f : A -> option B) (l : list A) : option B :=
  match l with
  | [] => None
  | x :: rest => match f x with
                 | Some y => Some y
                 | None => first_some f rest
                 end
  end.

(** Reading the report back: the text is cut into lines at each newline
    and the first line that starts with [Domain: ] gives the domain. *)
Definition parse_domain_line (txt : string) : option string :=
  first_some (strip_prefix "Domain: ") (split newline txt).


(** A field of the response is absent when the attribute is not there or
    holds [None]. *)
Definition absent {A : Type} (f : attr A) : Prop := f = Missing \/ f = IsNone.

(** The rule for a date field, clause by clause: nothing for an absent
    field; the first element stands for a list; a [datetime] is formatted;
    any other value is kept as its text.  Empty values (an empty list, an
    empty text) count as nothing. *)
Inductive normalized : attr date_value -> option string -> Prop :=
| norm_missing : normalized Missing None
| norm_none : normalized IsNone None
| norm_first (a : date_atom) (rest : list date_atom) (out : option string) :
    normalized (Has (DateOne a)) out ->
    normalized (Has (DateList (a :: rest))) out
| norm_empty_list : normalized (Has (DateList [])) None
| norm_datetime (d : datetime) :
    normalized (Has (DateOne (DateTime d))) (Some (strftime_d_B_Y d))
| norm_text (s : string) :
    s <> EmptyString ->
    normalized (Has (DateOne (DateStr s))) (Some s)
| norm_empty_text : normalized (Has (DateOne (DateStr EmptyString))) None.

(** The same rule in the specification's wording, where every value that
    is there and is not a [datetime] is kept as its text. *)
Inductive stated_normalized : attr date_value -> option string -> Prop :=
| stated_missing : stated_normalized Missing None
| stated_none : stated_normalized IsNone None
| stated_first (a : date_atom) (rest : list date_atom) (out : option string) :
    stated_normalized (Has (DateOne a)) out ->
    stated_normalized (Has (DateList (a :: rest))) out
| stated_datetime (d : datetime) :
    stated_normalized (Has (DateOne (DateTime d))) (Some (strftime_d_B_Y d))
| stated_text (s : string) :
    stated_normalized (Has (DateOne (DateStr s))) (Some s).

(** The widget that heads the name-server block of the page. *)
Definition names_name_servers (w : widget) : bool :=
  match w with
  | st_write (label :: _) => String.eqb label "**Name servers:**"
  | _ => false
  end.

Definition is_error (w : widget) : bool :=
  match w with
  | st_error _ => true
  | _ => false
  end.

(* ================================================================== *)
(** ** The whole script (sample.py, lines 6-11, 52-61 and 107-108) *)

(** What a run puts on the page outside the results: the static widgets
    of the top and of the foot, and the widgets of the results. *)
Inductive page_item : Type :=
| st_set_page_config (page_title : string) (layout : string)
| st_title (text : string)
| st_markdown (text : string)
| st_text_input (label : string) (placeholder : string)
| st_button (column : nat) (label : string)
| st_caption (text : string)
| in_results (w : widget).

(** [st.experimental_rerun()] as the installed Streamlit has it: a
    release that carries the function halts the run there and queues the
    script to run again from the top; a release that has dropped it raises
    on the call. *)
Inductive rerun_call : Type :=
| Rerun_queued
| Rerun_raises (e : exn).

Class Streamlit : Type := {
  st_experimental_rerun : rerun_call
}.

(** How a run of the script ends: at its last line, halted for a rerun,
    or on an exception nobody caught. *)
Inductive run : Type :=
| Finished (page : list page_item)
| Halted_for_rerun (page : list page_item)
| Crashed (e : exn) (page : list page_item).

(** The magnifying glass of the title (U+1F50E, in UTF-8). *)
Definition magnifier : string :=
  String (ascii_of_nat 240) (String (ascii_of_nat 159)
    (String (ascii_of_nat 148) (String (ascii_of_nat 142) EmptyString))).

(** Lines 6-11 and 52-58. *)
Definition page_top : list page_item :=
  [ st_set_page_config "Phishing Email Domain Checker" "centered";
    st_title (magnifier ++ " Phishing " ++ em_dash ++ " Email Domain Checker");
    st_markdown "Enter an email address below. The app will extract the domain and fetch WHOIS/history details (creation, update, expiry, registrar, name servers).";
    st_text_input "Enter an Email:" "example@domain.com";
    st_button 1 "Check Domain";
    st_button 2 "Clear" ].

(** Lines 107-108. *)
Definition page_foot : list page_item :=
  [ st_markdown "---";
    st_caption ("Built with Streamlit " ++ em_dash
                ++ " uses the `whois` and `tldextract` Python packages.") ].

Section Script.
Context {S : Streamlit} {T : TldExtract} {W : Whois}.

(** One run of the script; [email], [check] and [clear] are what the
    text input and the two buttons return in this run. *)
Definition script (email : string) (check clear : bool) : run :=
  if clear
  then match st_experimental_rerun with
       | Rerun_queued => Halted_for_rerun page_top
       | Rerun_raises e => Crashed e page_top
       end
  else
    let (r, out) := if check then on_check email else ui_ret tt in
    match r with
    | Return _ => Finished (page_top ++ map in_results out ++ page_foot)
    | Raise e => Crashed e (page_top ++ map in_results out)
    end.

End Script.

(** A release with [st.experimental_rerun], and one without. *)
Definition streamlit_with_rerun : Streamlit :=
  {| st_experimental_rerun := Rerun_queued |}.

Definition streamlit_without_rerun : Streamlit :=
  {| st_experimental_rerun :=
       Rerun_raises (LibraryError "AttributeError"
                       "module 'streamlit' has no attribute 'experimental_rerun'") |}.

Definition is_download (w : widget) : bool :=
  match w with
  | st_download_button _ _ _ => true
  | _ => false
  end.

(** Position of a string in a list. *)
Fixpoint index_of (x : string) (l : list string) : option nat :=
  match l with
  | [] => None
  | y :: rest => if String.eqb x y then Some 0
                 else match index_of x rest with
                      | Some i => Some (S i)
                      | None => None
                      end
  end.

(** Reading a date of the form [%d %B %Y] back: day, month, year. *)
Definition read_d_B_Y (s : string) : option (Z * Z * Z) :=
  match split " "%char s with
  | [dd; mm; yyyy] =>
      match index_of mm month_names with
      | Some i => Some (decimal dd, Z.of_nat (S i), decimal yyyy)
      | None => None
      end
  | _ => None
  end.

(** A string that is empty or starts with something else than white
    space. *)
Definition starts_clean (s : string) : Prop :=
  match s with
  | EmptyString => True
  | String c _ => is_space c = false
  end.

(* ================================================================== *)
(** ** Facts about the string primitives *)

Section SplitFacts.
Variable sep : ascii.

Lemma contains_app (a b : string) :
  contains sep (a ++ b) = contains sep a || contains sep b.
Proof.
  induction a as [|c a IH]; simpl; [reflexivity|].
  now rewrite IH, orb_assoc.
Qed.

Lemma contains_count (s : string) :
  contains sep s = false <-> count sep s = 0.
Proof.
  induction s as [|c s IH]; simpl; [tauto|].
  destruct (Ascii.eqb c sep); simpl; [split; [discriminate | lia]|exact IH].
Qed.

Lemma contains_true_count (s : string) :
  contains sep s = true <-> 1 <= count sep s.
Proof.
  destruct (contains sep s) eqn:E.
  - split; [intros _|reflexivity].
    destruct (count sep s) eqn:C; [|lia].
    apply contains_count in C. congruence.
  - apply contains_count in E. split; [discriminate | lia].
Qed.

(** A string without the separator is a single piece. *)
Lemma split_single (p : string) :
  contains sep p = false -> split sep p = [p].
Proof.
  induction p as [|c p IH]; simpl; [reflexivity|].
  destruct (Ascii.eqb c sep); simpl; [discriminate|].
  intros H. now rewrite (IH H).
Qed.

(** The first piece ends at the first separator. *)
Lemma split_app_sep (p rest : string) :
  contains sep p = false ->
  split sep (p ++ String sep rest) = p :: split sep rest.
Proof.
  induction p as [|c p IH]; simpl.
  - intros _. now rewrite Ascii.eqb_refl.
  - destruct (Ascii.eqb c sep); simpl; [discriminate|].
    intros H. now rewrite (IH H).
Qed.

(** A string that holds the separator is cut at its first occurrence. *)
Lemma first_occurrence (s : string) :
  contains sep s = true ->
  exists p rest, s = p ++ String sep rest /\ contains sep p = false.
Proof.
  induction s as [|c s IH]; simpl; [discriminate|].
  destruct (Ascii.eqb c sep) eqn:E; simpl.
  - intros _. apply Ascii.eqb_eq in E. subst c.
    now exists EmptyString, s.
  - intros H. destruct (IH H) as (p & rest & -> & Hp).
    exists (String c p), rest. simpl. now rewrite E.
Qed.

Lemma count_app (a b : string) :
  count sep (a ++ b) = count sep a + count sep b.
Proof.
  induction a as [|c a IH]; simpl; [reflexivity|]. rewrite IH. lia.
Qed.

Lemma split_length (s : string) :
  length (split sep s) = S (count sep s).
Proof.
  induction s as [|c s IH]; simpl; [reflexivity|].
  destruct (Ascii.eqb c sep); simpl; [now rewrite IH|].
  destruct (split sep s); simpl in *; lia.
Qed.

(** No piece holds the separator. *)
Lemma split_pieces (s : string) :
  Forall (fun p => contains sep p = false) (split sep s).
Proof.
  induction s as [|c s IH]; simpl.
  - now constructor.
  - destruct (Ascii.eqb c sep) eqn:E.
    + now constructor.
    + destruct (split sep s) as [|p ps]; [repeat constructor; simpl; now rewrite E|].
      inversion IH as [|? ? Hp Hps]; subst.
      constructor; [simpl; now rewrite E|assumption].
Qed.

(** Joining the pieces with the separator gives the string back. *)
Lemma join_split (s : string) :
  join (String sep EmptyString) (split sep s) = s.
Proof.
  induction s as [|c s IH]; simpl; [reflexivity|].
  destruct (Ascii.eqb c sep) eqn:E.
  - apply Ascii.eqb_eq in E. subst c.
    pose proof (split_length s) as L.
    destruct (split sep s) as [|p ps]; [discriminate|].
    simpl in IH |- *. now rewrite IH.
  - pose proof (split_length s) as L.
    destruct (split sep s) as [|p ps]; [discriminate|].
    destruct ps as [|q qs]; simpl in IH |- *; now rewrite <- IH.
Qed.

(** A character other than the separator survives in no piece unless it
    was in the string. *)
Lemma split_keeps_absent (c : ascii) (s : string) :
  contains c s = false ->
  Forall (fun p => contains c p = false) (split sep s).
Proof.
  induction s as [|a s IH]; simpl.
  - intros _. now constructor.
  - intros H. apply orb_false_iff in H as [Ha Hs].
    specialize (IH Hs).
    destruct (Ascii.eqb a sep).
    + now constructor.
    + destruct (split sep s) as [|p ps]; [repeat constructor; simpl; now rewrite Ha|].
      inversion IH; subst. constructor; [simpl; now rewrite Ha|assumption].
Qed.

End SplitFacts.

Lemma join_keeps_absent (c : ascii) (glue : string) (l : list string) :
  contains c glue = false ->
  Forall (fun p => contains c p = false) l ->
  contains c (join glue l) = false.
Proof.
  intros Hg H. induction H as [|p ps Hp Hps IH]; simpl; [reflexivity|].
  destruct ps as [|q qs]; [assumption|].
  rewrite !contains_app, Hp, Hg, IH. reflexivity.
Qed.

Lemma string_app_assoc (a b c : string) : (a ++ b) ++ c = a ++ (b ++ c).
Proof. induction a as [|x a IH]; simpl; [reflexivity | now rewrite IH]. Qed.

Lemma str_truthy_false (s : string) : str_truthy s = false <-> s = EmptyString.
Proof. destruct s; simpl; split; congruence. Qed.

Lemma str_truthy_true (s : string) : str_truthy s = true <-> s <> EmptyString.
Proof. destruct s; simpl; split; congruence. Qed.

(* ================================================================== *)
(** ** The domain extractor *)

(** Without [@] the index 1 is out of range. *)
Lemma domain_part_without_at (email : string) :
  contains at_sign email = false ->
  domain_part email = Raise (IndexError "list index out of range").
Proof.
  intros H. unfold domain_part. now rewrite (split_single _ _ H).
Qed.

(** With an [@], the piece at index 1 starts right after the first [@] and
    stops at the second one, or at the end when there is none. *)
Lemma domain_part_cut (email : string) :
  contains at_sign email = true ->
  exists pre tail part,
    email = pre ++ String at_sign tail /\
    contains at_sign pre = false /\
    domain_part email = Return part /\
    contains at_sign part = false /\
    ((contains at_sign tail = false /\ part = tail) \/
     (exists rest, tail = part ++ String at_sign rest)).
Proof.
  intros H.
  destruct (first_occurrence _ _ H) as (pre & tail & -> & Hpre).
  unfold domain_part. rewrite (split_app_sep _ _ _ Hpre).
  destruct (contains at_sign tail) eqn:Ht.
  - destruct (first_occurrence _ _ Ht) as (part & rest & -> & Hpart).
    exists pre, (part ++ String at_sign rest), part.
    rewrite (split_app_sep _ _ _ Hpart). simpl.
    repeat split; try assumption. right. now exists rest.
  - exists pre, tail, tail. rewrite (split_single _ _ Ht). simpl.
    repeat split; try assumption. now left.
Qed.

Lemma domain_part_returns_iff (email : string) :
  contains at_sign email = true <-> exists part, domain_part email = Return part.
Proof.
  split.
  - intros H. destruct (domain_part_cut _ H) as (_ & _ & part & _ & _ & E & _).
    now exists part.
  - intros [part E]. destruct (contains at_sign email) eqn:C; [reflexivity|].
    rewrite (domain_part_without_at _ C) in E. discriminate.
Qed.

Lemma root_domain_keeps_no_at (ext : ExtractResult) :
  contains at_sign (ext_domain ext) = false ->
  contains at_sign (ext_suffix ext) = false ->
  contains at_sign (root_domain ext) = false.
Proof.
  intros Hd Hs. unfold root_domain.
  destruct (str_truthy (ext_suffix ext)); [|assumption].
  now rewrite !contains_app, Hd, Hs.
Qed.

(** The sample parser meets the laws of the interface. *)
Lemma Forall_nth_default {A : Type} (P : A -> Prop) (l : list A) (d : A) (n : nat) :
  P d -> Forall P l -> P (nth n l d).
Proof.
  intros Hd H. revert n.
  induction H as [|x l Hx Hl IH]; intros [|n]; simpl; auto.
Qed.

Lemma Forall_skipn_keeps {A : Type} (P : A -> Prop) (l : list A) (n : nat) :
  Forall P l -> Forall P (skipn n l).
Proof.
  intros H. revert n.
  induction H as [|x l Hx Hl IH]; intros [|n]; simpl; auto.
Qed.

Lemma sample_laws : TldExtractLaws SampleSuffixes.sample_tld.
Proof.
  split.
  - intros s. now exists (SampleSuffixes.extract s).
  - intros s r E Hs. simpl in E. injection E as <-.
    pose proof (split_keeps_absent SampleSuffixes.dot at_sign s Hs) as F.
    unfold SampleSuffixes.extract. simpl. split.
    + destruct (SampleSuffixes.suffix_index _); [reflexivity|].
      now apply Forall_nth_default.
    + destruct (_ =? _)%nat; [reflexivity|].
      apply join_keeps_absent; [reflexivity|].
      now apply Forall_skipn_keeps.
Qed.

Section ExtractorFacts.
Context {T : TldExtract}.

(** The three ways through the body: the index is out of range, the
    parser raises, the parser answers. *)
Lemma extract_domain_cases (email : string) :
  (exists e, domain_part email = Raise e /\
             extract_domain_from_email email = Return None) \/
  (exists part e, domain_part email = Return part /\
                  tldextract_extract part = Raise e /\
                  extract_domain_from_email email = Return None) \/
  (exists part ext, domain_part email = Return part /\
                    tldextract_extract part = Return ext /\
                    extract_domain_from_email email = Return (Some (root_domain ext))).
Proof.
  unfold extract_domain_from_email.
  destruct (domain_part email) as [part|e1]; simpl.
  - destruct (tldextract_extract part) as [ext|e2] eqn:He; simpl.
    + right. right. now exists part, ext.
    + right. left. now exists part, e2.
  - left. now exists e1.
Qed.

(** C10.  [extract_domain_from_email] is total: on every input string it
    returns a string or [None], and no exception leaves it, whatever the
    indexing or the public-suffix package raises inside. *)
Theorem extract_domain_from_email_total (email : string) :
  (exists r : option string, extract_domain_from_email email = Return r) /\
  (forall e, extract_domain_from_email email <> Raise e).
Proof.
  destruct (extract_domain_cases email)
    as [(e1 & _ & H) | [(part & e2 & _ & _ & H) | (part & ext & _ & _ & H)]];
    rewrite H; split; solve [now eexists | discriminate].
Qed.

(** C2.  When the piece after the [@] is decomposed by the public-suffix
    parser, the result is label, dot, suffix if a suffix was recognised
    (the suffix is not empty), and the label alone otherwise; in both
    cases it is a string, not the failure value. *)
Theorem extract_domain_from_email_root (email part : string) (ext : ExtractResult) :
  domain_part email = Return part ->
  tldextract_extract part = Return ext ->
  (ext_suffix ext <> EmptyString ->
   extract_domain_from_email email
   = Return (Some (ext_domain ext ++ "." ++ ext_suffix ext))) /\
  (ext_suffix ext = EmptyString ->
   extract_domain_from_email email = Return (Some (ext_domain ext))).
Proof.
  intros Hp He. unfold extract_domain_from_email, root_domain.
  rewrite Hp. simpl. rewrite He. simpl. split; intros Hs.
  - apply str_truthy_true in Hs. now rewrite Hs.
  - now rewrite Hs.
Qed.

(** [None] comes back exactly when the address has no [@] or the
    public-suffix parser raises on the piece after it; a piece that
    decomposes into an empty label and an empty suffix gives the empty
    string. *)
Lemma extract_none_iff (email : string) :
  (extract_domain_from_email email = Return None <->
   contains at_sign email = false \/
   exists part e, domain_part email = Return part /\
                  tldextract_extract part = Raise e) /\
  (forall part ext,
      domain_part email = Return part ->
      tldextract_extract part = Return ext ->
      ext_domain ext = EmptyString ->
      ext_suffix ext = EmptyString ->
      extract_domain_from_email email = Return (Some EmptyString)).
Proof.
  split.
  - unfold extract_domain_from_email. split.
    + intros H. destruct (contains at_sign email) eqn:C; [right | now left].
      apply domain_part_returns_iff in C as [part Hp].
      rewrite Hp in H. simpl in H.
      destruct (tldextract_extract part) as [ext|e] eqn:He; simpl in H.
      * discriminate.
      * now exists part, e.
    + intros [C | (part & e & Hp & He)].
      * now rewrite (domain_part_without_at _ C).
      * rewrite Hp. simpl. now rewrite He.
  - intros part ext Hp He Hd Hs.
    unfold extract_domain_from_email, root_domain.
    rewrite Hp. simpl. rewrite He. simpl. now rewrite Hs, Hd.
Qed.

(** C6, as the script has it.  With two or more [@], the piece handed to
    the public-suffix parser is the text between the first and the second
    [@]: the second [@] and what follows it are left out. *)
Theorem domain_part_between_first_two_ats (email : string) :
  2 <= count at_sign email ->
  exists pre part rest,
    email = pre ++ "@" ++ part ++ "@" ++ rest /\
    contains at_sign pre = false /\
    contains at_sign part = false /\
    domain_part email = Return part.
Proof.
  intros H.
  assert (C : contains at_sign email = true) by (apply contains_true_count; lia).
  destruct (domain_part_cut _ C) as (pre & tail & part & -> & Hpre & Hp & Hpart & Hcase).
  destruct Hcase as [[Ht _] | [rest ->]].
  - exfalso. rewrite count_app in H. simpl in H.
    apply contains_count in Hpre, Ht. lia.
  - exists pre, part, rest. repeat split; assumption.
Qed.

Section WithLaws.
Context {L : TldExtractLaws T}.

(** With a parser that answers every host string and adds no [@] of its
    own, an address with an [@] gives a string, and one without [@]. *)
Lemma extract_with_at_under_laws (email : string) :
  contains at_sign email = true ->
  exists d, extract_domain_from_email email = Return (Some d) /\
            contains at_sign d = false.
Proof.
  intros C.
  destruct (domain_part_cut _ C) as (_ & _ & part & _ & _ & Hp & Hpart & _).
  destruct (extract_returns part) as [ext He].
  destruct (extract_no_at part ext He Hpart) as [Hd Hs].
  exists (root_domain ext). split.
  - unfold extract_domain_from_email. rewrite Hp. simpl. now rewrite He.
  - now apply root_domain_keeps_no_at.
Qed.

End WithLaws.
End ExtractorFacts.

(* ================================================================== *)
(** ** The date format *)

Lemma digit_value_digit (k : Z) : digit_value (digit k) = (k mod 10)%Z.
Proof.
  unfold digit_value, digit.
  pose proof (Z.mod_pos_bound k 10 ltac:(lia)) as B.
  rewrite nat_ascii_embedding by lia.
  lia.
Qed.

Lemma decimal_two_digits (n : Z) :
  (0 <= n <= 99)%Z -> decimal (two_digits n) = n.
Proof.
  intros H. unfold decimal, two_digits. cbn [decimal_acc].
  rewrite !digit_value_digit.
  Z.div_mod_to_equations. lia.
Qed.

Lemma decimal_four_digits (n : Z) :
  (0 <= n <= 9999)%Z -> decimal (four_digits n) = n.
Proof.
  intros H. unfold decimal, four_digits. cbn [decimal_acc].
  rewrite !digit_value_digit.
  Z.div_mod_to_equations. lia.
Qed.

Lemma decimal_year_digits (n : Z) :
  (0 <= n <= 9999)%Z -> decimal (year_digits n) = n.
Proof.
  intros H. unfold year_digits.
  destruct (Z.ltb_spec n 10); [|destruct (Z.ltb_spec n 100); [|destruct (Z.ltb_spec n 1000)]].
  - unfold decimal. cbn [decimal_acc]. rewrite digit_value_digit.
    Z.div_mod_to_equations. lia.
  - apply decimal_two_digits. lia.
  - unfold decimal. cbn [decimal_acc]. rewrite !digit_value_digit.
    Z.div_mod_to_equations. lia.
  - now apply decimal_four_digits.
Qed.

Lemma year_digits_length (n : Z) :
  (1000 <= n)%Z -> String.length (year_digits n) = 4.
Proof.
  intros H. unfold year_digits.
  destruct (Z.ltb_spec n 10); [lia|]. destruct (Z.ltb_spec n 100); [lia|].
  destruct (Z.ltb_spec n 1000); [lia | reflexivity].
Qed.

Lemma month_name_listed (m : Z) :
  (1 <= m <= 12)%Z -> In (month_name m) month_names.
Proof.
  intros H. unfold month_name.
  apply nth_In. simpl. lia.
Qed.

(** What [%d %B %Y] prints for a date: two digits that read as the day, a
    space, the month's name, a space, and the digits that read as the
    year, four of them from the year 1000 on. *)
Lemma strftime_shape (d : datetime) :
  datetime_valid d ->
  exists dd yyyy,
    strftime_d_B_Y d = dd ++ " " ++ month_name (dt_month d) ++ " " ++ yyyy /\
    String.length dd = 2 /\ decimal dd = dt_day d /\
    In (month_name (dt_month d)) month_names /\
    decimal yyyy = dt_year d /\
    ((1000 <= dt_year d)%Z -> String.length yyyy = 4).
Proof.
  intros (Hy & Hm & Hd).
  exists (two_digits (dt_day d)), (year_digits (dt_year d)).
  repeat split.
  - apply decimal_two_digits. lia.
  - now apply month_name_listed.
  - apply decimal_year_digits. lia.
  - apply year_digits_length.
Qed.

(* ================================================================== *)
(** ** The WHOIS summarizer *)

(** Picking and formatting one date field never raises, and follows the
    rule. *)
Lemma pick_field_normalized (f : attr date_value) :
  exists x, pick_field f = Return x /\ normalized f (format_date x).
Proof.
  destruct f as [| |[[s|d]|[|[s|d] rest]]]; simpl.
  - exists None. split; [reflexivity | constructor].
  - exists None. split; [reflexivity | constructor].
  - destruct s as [|c s]; simpl.
    + exists None. split; [reflexivity | constructor].
    + exists (Some (DateStr (String c s))). split; [reflexivity|].
      simpl. now constructor.
  - exists (Some (DateTime d)). split; [reflexivity | constructor].
  - exists None. split; [reflexivity | constructor].
  - exists (Some (DateStr s)). split; [reflexivity|].
    constructor. destruct s; simpl; now constructor.
  - exists (Some (DateTime d)). split; [reflexivity|].
    constructor. constructor.
Qed.

Lemma pick_field_absent (f : attr date_value) :
  absent f -> pick_field f = Return None.
Proof. now intros [-> | ->]. Qed.

(** The rule gives one result per field value. *)
Lemma normalized_functional (f : attr date_value) (a b : option string) :
  normalized f a -> normalized f b -> a = b.
Proof.
  intros Ha. revert b.
  induction Ha; intros b Hb; inversion Hb; subst; auto; congruence.
Qed.

Section SummarizerFacts.
Context {W : Whois}.

(** Once the query has answered, the dictionary is built in full. *)
Lemma get_domain_history_returns (name : string) (w : WhoisEntry) :
  whois_whois name = Return w ->
  exists c u x,
    pick_field (w_creation_date w) = Return c /\
    pick_field (w_updated_date w) = Return u /\
    pick_field (w_expiration_date w) = Return x /\
    get_domain_history name
    = Return {| domain := name;
                registrar := getattr (w_registrar w) None;
                creation_date := format_date c;
                updated_date := format_date u;
                expiry_date := format_date x;
                name_servers := pick_name_servers (w_name_servers w);
                raw_whois := w_str w |}.
Proof.
  intros Hw.
  destruct (pick_field_normalized (w_creation_date w)) as (c & Hc & _).
  destruct (pick_field_normalized (w_updated_date w)) as (u & Hu & _).
  destruct (pick_field_normalized (w_expiration_date w)) as (x & Hx & _).
  exists c, u, x. repeat split; try assumption.
  unfold get_domain_history. rewrite Hw. simpl.
  rewrite Hc. simpl. rewrite Hu. simpl. rewrite Hx. reflexivity.
Qed.

(** A failing query fails the function with the same exception. *)
Lemma get_domain_history_raises (name : string) (e : exn) :
  whois_whois name = Raise e -> get_domain_history name = Raise e.
Proof. intros Hw. unfold get_domain_history. now rewrite Hw. Qed.

(** C1, as the script has it.  Each of the three date fields of the
    dictionary follows the rule [normalized]: null for an absent field
    (and no exception), the first element of a list and nothing of the
    rest, a [datetime] printed as two-digit day, month name and the year
    in decimal (four digits from the year 1000 on, no zeros in front of
    an earlier year), any other non-empty value as its own text; an empty
    text or an empty list gives null. *)
Theorem date_fields_normalized (name : string) (w : WhoisEntry) :
  whois_whois name = Return w ->
  (exists info,
      get_domain_history name = Return info /\
      normalized (w_creation_date w) (creation_date info) /\
      normalized (w_updated_date w) (updated_date info) /\
      normalized (w_expiration_date w) (expiry_date info)) /\
  (forall d, datetime_valid d ->
     exists dd yyyy,
       strftime_d_B_Y d = dd ++ " " ++ month_name (dt_month d) ++ " " ++ yyyy /\
       String.length dd = 2 /\ decimal dd = dt_day d /\
       In (month_name (dt_month d)) month_names /\
       decimal yyyy = dt_year d /\
       ((1000 <= dt_year d)%Z -> String.length yyyy = 4)) /\
  strftime_d_B_Y (mkDatetime 2024 1 15 0 0 0) = "15 January 2024".
Proof.
  intros Hw. split; [|split; [exact strftime_shape | reflexivity]].
  destruct (get_domain_history_returns _ _ Hw) as (c & u & x & Hc & Hu & Hx & E).
  eexists. split; [exact E|]. simpl.
  destruct (pick_field_normalized (w_creation_date w)) as (c' & Hc' & Nc).
  destruct (pick_field_normalized (w_updated_date w)) as (u' & Hu' & Nu).
  destruct (pick_field_normalized (w_expiration_date w)) as (x' & Hx' & Nx).
  assert (c' = c) by congruence. assert (u' = u) by congruence.
  assert (x' = x) by congruence. subst. auto.
Qed.


End SummarizerFacts.

(* ================================================================== *)
(** ** The page *)

(** The widgets of the summary, in order. *)
Lemma show_summary_widgets (name : string) (info : DomainInfo) :
  show_summary name info
  = (Return tt,
     [ st_subheader "Domain History / WHOIS Summary";
       st_write ["**Registrar:**"; or_dash (registrar info)];
       st_write ["**Creation date:**"; or_dash (creation_date info)];
       st_write ["**Last updated:**"; or_dash (updated_date info)];
       st_write ["**Expires on:**"; or_dash (expiry_date info)] ]
     ++ (if list_truthy (name_servers info)
         then [ st_write ["**Name servers:**"];
                st_write [join ", " (name_servers info)] ]
         else [])
     ++ [ st_expander "Show raw WHOIS output" [st_code (raw_whois info)];
          st_download_button "Download WHOIS report (.txt)"
            (report_txt info) (name ++ "_whois.txt") ])%list.
Proof.
  unfold show_summary. now destruct (name_servers info).
Qed.

Lemma show_summary_no_error (name : string) (info : DomainInfo) :
  existsb is_error (snd (show_summary name info)) = false.
Proof.
  rewrite show_summary_widgets. now destruct (name_servers info).
Qed.

Ltac string_assoc := repeat rewrite string_app_assoc; reflexivity.

(** The head of the report: the domain, then a newline. *)
Lemma report_txt_head (info : DomainInfo) :
  exists rest, report_txt info = ("Domain: " ++ domain info) ++ String newline rest.
Proof.
  unfold report_txt, nl. eexists. rewrite string_app_assoc. reflexivity.
Qed.

(** C9, as the script has it.  For a record whose domain holds no newline,
    the first [Domain: ] line of the report reads back as the domain. *)
Theorem report_domain_round_trip (info : DomainInfo) :
  contains newline (domain info) = false ->
  parse_domain_line (report_txt info) = Some (domain info).
Proof.
  intros H. destruct (report_txt_head info) as [rest ->].
  unfold parse_domain_line.
  rewrite split_app_sep by (rewrite contains_app, H; reflexivity).
  reflexivity.
Qed.

Section PageFacts.
Context {T : TldExtract} {W : Whois}.

(** The guarded lookup always ends normally. *)
Lemma lookup_and_show_returns (name : string) :
  exists out, lookup_and_show name = (Return tt, out).
Proof.
  unfold lookup_and_show.
  destruct (get_domain_history name) as [info|e]; unfold call, ui_bind, ui_try.
  - rewrite show_summary_widgets. now eexists.
  - simpl. now eexists.
Qed.

(** C3.  The guarded lookup never lets an exception out.  When the query
    raises, [get_domain_history] builds nothing and the page gets the
    error report with the reason, and nothing of a record; when it
    answers, the dictionary is built in full and the page gets the summary
    with no error report. *)
Theorem lookup_and_show_guarded (name : string) :
  (exists out, lookup_and_show name = (Return tt, out)) /\
  (forall e, whois_whois name = Raise e ->
     get_domain_history name = Raise e /\
     lookup_and_show name
     = (Return tt, [st_error ("Error fetching WHOIS info: " ++ exn_str e)])) /\
  (forall w, whois_whois name = Return w ->
     exists info out,
       get_domain_history name = Return info /\
       domain info = name /\ raw_whois info = w_str w /\
       show_summary name info = (Return tt, out) /\
       lookup_and_show name = (Return tt, out) /\
       existsb is_error out = false).
Proof.
  assert (Hraise : forall e, whois_whois name = Raise e ->
            get_domain_history name = Raise e /\
            lookup_and_show name
            = (Return tt, [st_error ("Error fetching WHOIS info: " ++ exn_str e)])).
  { intros e He. pose proof (get_domain_history_raises _ _ He) as Hg.
    split; [assumption|]. unfold lookup_and_show. now rewrite Hg. }
  assert (Hret : forall w, whois_whois name = Return w ->
            exists info out,
              get_domain_history name = Return info /\
              domain info = name /\ raw_whois info = w_str w /\
              show_summary name info = (Return tt, out) /\
              lookup_and_show name = (Return tt, out) /\
              existsb is_error out = false).
  { intros w Hw.
    destruct (get_domain_history_returns _ _ Hw) as (c & u & x & _ & _ & _ & E).
    eexists. eexists. split; [exact E|].
    split; [reflexivity|]. split; [reflexivity|].
    split; [apply show_summary_widgets|]. split.
    - unfold lookup_and_show. rewrite E. unfold call, ui_bind, ui_try.
      rewrite show_summary_widgets. reflexivity.
    - match goal with |- existsb _ ?o = false =>
        change o with (snd (Return tt, o)) end.
      rewrite <- show_summary_widgets. apply show_summary_no_error. }
  split; [apply lookup_and_show_returns | split; assumption].
Qed.

(** C7, as the script has it.  After a query that answered: an absent
    registrar or date is shown with the dash on the page and printed as
    [None] in the report; absent name servers leave no name-server entry
    on the page and an empty value on their line of the report. *)
Theorem absent_fields_rendering (name : string) (w : WhoisEntry) :
  whois_whois name = Return w ->
  exists out txt,
    lookup_and_show name = (Return tt, out) /\
    In (st_download_button "Download WHOIS report (.txt)" txt (name ++ "_whois.txt")) out /\
    (absent (w_registrar w) ->
       In (st_write ["**Registrar:**"; em_dash]) out /\
       occurs (nl ++ "Registrar: None" ++ nl) txt) /\
    (absent (w_creation_date w) ->
       In (st_write ["**Creation date:**"; em_dash]) out /\
       occurs (nl ++ "Creation date: None" ++ nl) txt) /\
    (absent (w_updated_date w) ->
       In (st_write ["**Last updated:**"; em_dash]) out /\
       occurs (nl ++ "Last updated: None" ++ nl) txt) /\
    (absent (w_expiration_date w) ->
       In (st_write ["**Expires on:**"; em_dash]) out /\
       occurs (nl ++ "Expiry date: None" ++ nl) txt) /\
    (absent (w_name_servers w) ->
       existsb names_name_servers out = false /\
       occurs (nl ++ "Name servers: " ++ nl ++ nl ++ "Raw WHOIS:" ++ nl) txt).
Proof.
  intros Hw.
  destruct (get_domain_history_returns _ _ Hw) as (c & u & x & Hc & Hu & Hx & E).
  match type of E with _ = Return ?i =>
    exists (snd (show_summary name i)), (report_txt i) end.
  split.
  { unfold lookup_and_show. rewrite E. unfold call, ui_bind, ui_try.
    rewrite show_summary_widgets. reflexivity. }
  rewrite show_summary_widgets. cbn [snd].
  cbn [domain registrar creation_date updated_date expiry_date name_servers raw_whois].
  split.
  { apply in_or_app. right. apply in_or_app. right. right. left. reflexivity. }
  unfold report_txt.
  cbn [domain registrar creation_date updated_date expiry_date name_servers raw_whois].
  repeat split.
  - destruct H as [-> | ->]; simpl; auto.
  - destruct H as [-> | ->];
      (exists ("Domain: " ++ name); eexists; cbn [getattr fmt]; string_assoc).
  - rewrite (pick_field_absent _ H) in Hc. injection Hc as <-. simpl. auto.
  - rewrite (pick_field_absent _ H) in Hc. injection Hc as <-.
    exists ("Domain: " ++ name ++ nl ++ "Registrar: " ++ fmt (getattr (w_registrar w) None)).
    eexists. cbn [format_date fmt]. string_assoc.
  - rewrite (pick_field_absent _ H) in Hu. injection Hu as <-. simpl. auto 6.
  - rewrite (pick_field_absent _ H) in Hu. injection Hu as <-.
    exists ("Domain: " ++ name ++ nl ++ "Registrar: " ++ fmt (getattr (w_registrar w) None)
            ++ nl ++ "Creation date: " ++ fmt (format_date c)).
    eexists. cbn [format_date fmt]. string_assoc.
  - rewrite (pick_field_absent _ H) in Hx. injection Hx as <-. simpl. auto 7.
  - rewrite (pick_field_absent _ H) in Hx. injection Hx as <-.
    exists ("Domain: " ++ name ++ nl ++ "Registrar: " ++ fmt (getattr (w_registrar w) None)
            ++ nl ++ "Creation date: " ++ fmt (format_date c)
            ++ nl ++ "Last updated: " ++ fmt (format_date u)).
    eexists. cbn [format_date fmt]. string_assoc.
  - destruct H as [-> | ->]; reflexivity.
  - exists ("Domain: " ++ name ++ nl ++ "Registrar: " ++ fmt (getattr (w_registrar w) None)
            ++ nl ++ "Creation date: " ++ fmt (format_date c)
            ++ nl ++ "Last updated: " ++ fmt (format_date u)
            ++ nl ++ "Expiry date: " ++ fmt (format_date x)).
    exists (w_str w).
    destruct H as [-> | ->]; cbn [pick_name_servers getattr truthy py_list join];
      string_assoc.
Qed.

(** C4, as the script has it.  The function returns [None] exactly when
    the address has no [@] or the public-suffix parser raises on the piece
    after it.  A piece that decomposes into an empty label and an empty
    suffix gives the empty string, not [None].  The page treats both alike:
    it reports that no domain could be extracted and looks nothing up. *)
Theorem extraction_failure_cases (email : string) :
  (extract_domain_from_email email = Return None <->
   contains at_sign email = false \/
   exists part e, domain_part email = Return part /\
                  tldextract_extract part = Raise e) /\
  (forall part ext,
      domain_part email = Return part ->
      tldextract_extract part = Return ext ->
      ext_domain ext = EmptyString ->
      ext_suffix ext = EmptyString ->
      extract_domain_from_email email = Return (Some EmptyString)) /\
  (email <> EmptyString ->
   extract_domain_from_email (strip email) = Return None \/
   extract_domain_from_email (strip email) = Return (Some EmptyString) ->
   on_check email
   = (Return tt, [st_error "Could not extract a valid domain from that email."])).
Proof.
  destruct (extract_none_iff email) as [H1 H2].
  split; [exact H1|]. split; [exact H2|].
  intros Hne H. unfold on_check.
  apply str_truthy_true in Hne. rewrite Hne. simpl.
  destruct H as [-> | ->]; reflexivity.
Qed.

(** Pressing the button never ends in an exception: extraction is total
    and the lookup is guarded. *)
Lemma on_check_never_raises (email : string) :
  exists out, on_check email = (Return tt, out).
Proof.
  unfold on_check.
  destruct (str_truthy email); simpl; [|now eexists].
  assert (exists r, extract_domain_from_email (strip email) = Return r) as [r Hr].
  { destruct (extract_domain_cases (strip email))
      as [(e1 & _ & H) | [(part & e2 & _ & _ & H) | (part & ext & _ & _ & H)]];
      rewrite H; now eexists. }
  rewrite Hr. unfold call, ui_bind.
  destruct r as [d|]; simpl; [|now eexists].
  destruct (str_truthy d); [|now eexists].
  destruct (lookup_and_show_returns d) as [out Hout].
  rewrite Hout. now eexists.
Qed.

End PageFacts.

(* ================================================================== *)
(** ** The script on concrete inputs *)

Import SampleSuffixes SampleWhois.

Example extract_co_uk :
  @extract_domain_from_email sample_tld "user@mail.example.co.uk"
  = Return (Some "example.co.uk").
Proof. reflexivity. Qed.

Example extract_without_at :
  @extract_domain_from_email sample_tld "user.example.com" = Return None.
Proof. reflexivity. Qed.

Example end_to_end_alice :
  exists out,
    @on_check sample_tld sample_whois "alice@example.com" = (Return tt, out) /\
    In (st_success "Extracted domain: **example.com**") out /\
    In (st_write ["**Creation date:**"; "14 August 1995"]) out /\
    In (st_write ["ns1.example.com, ns2.example.com"]) out.
Proof. eexists. split; [reflexivity|]. simpl. tauto. Qed.

Example end_to_end_empty_input :
  @on_check sample_tld sample_whois ""
  = (Return tt, [st_error "Please enter an email address."]).
Proof. reflexivity. Qed.

(** With a single [@] the script's piece is what the specification
    describes: everything after it. *)
Lemma spec_after_first_at_cut (pre tail : string) :
  contains at_sign pre = false ->
  spec_after_first_at (pre ++ String at_sign tail) = Some tail.
Proof.
  induction pre as [|c pre IH]; simpl; [reflexivity|].
  destruct (Ascii.eqb c at_sign); simpl; [discriminate | exact IH].
Qed.

Lemma domain_part_single_at (email : string) :
  count at_sign email = 1 ->
  exists part, spec_after_first_at email = Some part /\ domain_part email = Return part.
Proof.
  intros H.
  assert (C : contains at_sign email = true) by (apply contains_true_count; lia).
  destruct (domain_part_cut _ C) as (pre & tail & part & -> & Hpre & Hp & _ & Hcase).
  destruct Hcase as [[_ ->] | [rest ->]].
  - exists tail. split; [now apply spec_after_first_at_cut | assumption].
  - exfalso. rewrite !count_app in H. simpl in H.
    rewrite count_app in H. simpl in H. lia.
Qed.

(** C1, where the stated rule fails: a creation date that is the empty
    text is there and is no [datetime], yet the dictionary holds null and
    not that text; and the first day of the year 999 is printed with a
    year of three digits. *)
Lemma empty_text_and_early_year :
  (exists info,
      @get_domain_history (always blank_date_entry) "example.com" = Return info /\
      w_creation_date blank_date_entry = Has (DateOne (DateStr EmptyString)) /\
      creation_date info = None /\
      ~ stated_normalized (w_creation_date blank_date_entry) (creation_date info)) /\
  (exists info,
      @get_domain_history (always early_year_entry) "example.com" = Return info /\
      datetime_valid (mkDatetime 999 1 1 0 0 0) /\
      creation_date info = Some "01 January 999").
Proof.
  split.
  - eexists. split; [reflexivity|]. split; [reflexivity|]. split; [reflexivity|].
    simpl. intros H. inversion H.
  - eexists. split; [reflexivity|]. split; [|reflexivity].
    unfold datetime_valid. simpl. lia.
Qed.

(** C4, where the stated rule fails: for [user@] the piece after the [@]
    decomposes into nothing usable, yet the function returns the empty
    string and not [None]. *)
Lemma empty_candidate_is_not_none :
  @domain_part "user@" = Return EmptyString /\
  @tldextract_extract sample_tld EmptyString
  = Return {| ext_subdomain := ""; ext_domain := ""; ext_suffix := "" |} /\
  @extract_domain_from_email sample_tld "user@" = Return (Some EmptyString) /\
  @extract_domain_from_email sample_tld "user@" <> Return None.
Proof.
  repeat split. discriminate.
Qed.

(** C5, where the stated rule fails: [user@] holds an [@], yet what the
    function returns for it is the empty string, and the page reports
    that no domain could be extracted. *)
Lemma lone_at_sign_is_rejected :
  contains at_sign "user@" = true /\
  @extract_domain_from_email sample_tld "user@" = Return (Some EmptyString) /\
  @on_check sample_tld sample_whois "user@"
  = (Return tt, [st_error "Could not extract a valid domain from that email."]).
Proof.
  repeat split.
Qed.

(** C6, where the stated rule fails: for [a@b@c] the text after the first
    [@] is [b@c], but the piece handed on is [b]. *)
Lemma second_at_is_cut_off :
  count at_sign "a@b@c" = 2 /\
  spec_after_first_at "a@b@c" = Some "b@c" /\
  domain_part "a@b@c" = Return "b" /\
  domain_part "a@b@c" <> Return "b@c".
Proof.
  repeat split. discriminate.
Qed.

(** C7, where the stated rule fails: with no name servers in the response
    the page has no name-server entry at all, and their line of the report
    ends right after the colon and the space. *)
Lemma name_servers_left_out :
  @whois_whois sample_whois "thin.org" = Return thin_entry /\
  absent (w_name_servers thin_entry) /\
  @lookup_and_show sample_whois "thin.org"
  = (Return tt,
     [ st_subheader "Domain History / WHOIS Summary";
       st_write ["**Registrar:**"; em_dash];
       st_write ["**Creation date:**"; em_dash];
       st_write ["**Last updated:**"; em_dash];
       st_write ["**Expires on:**"; em_dash];
       st_expander "Show raw WHOIS output" [st_code "No match"];
       st_download_button "Download WHOIS report (.txt)"
         ("Domain: thin.org" ++ nl ++ "Registrar: None" ++ nl ++
          "Creation date: None" ++ nl ++ "Last updated: None" ++ nl ++
          "Expiry date: None" ++ nl ++ "Name servers: " ++ nl ++ nl ++
          "Raw WHOIS:" ++ nl ++ "No match")
         "thin.org_whois.txt" ]) /\
  existsb names_name_servers (snd (@lookup_and_show sample_whois "thin.org")) = false.
Proof.
  split; [reflexivity|]. split; [now right|]. split; reflexivity.
Qed.

(** C9, where the stated rule fails: a domain with a newline in it does
    not read back from the report. *)
Lemma multiline_domain_not_read_back :
  domain multiline_record = "a" ++ nl ++ "b" /\
  parse_domain_line (report_txt multiline_record) = Some "a" /\
  parse_domain_line (report_txt multiline_record) <> Some (domain multiline_record).
Proof.
  split; [reflexivity|]. split; [reflexivity | discriminate].
Qed.

(* ================================================================== *)
(** ** The statements above at concrete inputs *)

Lemma date_fields_normalized_witness :
  @whois_whois sample_whois "example.com" = Return example_com /\
  exists info,
    @get_domain_history sample_whois "example.com" = Return info /\
    normalized (w_creation_date example_com) (creation_date info) /\
    normalized (w_updated_date example_com) (updated_date info) /\
    normalized (w_expiration_date example_com) (expiry_date info).
Proof.
  split; [reflexivity|].
  exact (proj1 (@date_fields_normalized sample_whois "example.com" example_com eq_refl)).
Defined.

Lemma extract_domain_from_email_root_witness :
  @domain_part "user@localhost" = Return "localhost" /\
  @tldextract_extract sample_tld "localhost" = Return (extract "localhost") /\
  ext_suffix (extract "localhost") = EmptyString /\
  @extract_domain_from_email sample_tld "user@localhost" = Return (Some "localhost").
Proof.
  split; [reflexivity|]. split; [reflexivity|]. split; [reflexivity|].
  exact (proj2 (@extract_domain_from_email_root sample_tld "user@localhost"
                  "localhost" (extract "localhost") eq_refl eq_refl) eq_refl).
Defined.

Lemma lookup_and_show_guarded_witness :
  @whois_whois sample_whois "nowhere.net"
  = Raise (LibraryError "PywhoisError" "No whois server is known for this kind of object.") /\
  @lookup_and_show sample_whois "nowhere.net"
  = (Return tt,
     [st_error "Error fetching WHOIS info: No whois server is known for this kind of object."]).
Proof.
  split; [reflexivity|].
  exact (proj2 (proj1 (proj2 (@lookup_and_show_guarded sample_whois "nowhere.net")) _ eq_refl)).
Defined.

Lemma extraction_failure_cases_witness :
  "user@" <> EmptyString /\
  @extract_domain_from_email sample_tld (strip "user@") = Return (Some EmptyString) /\
  @on_check sample_tld sample_whois "user@"
  = (Return tt, [st_error "Could not extract a valid domain from that email."]).
Proof.
  split; [discriminate|]. split; [reflexivity|].
  apply (proj2 (proj2 (@extraction_failure_cases sample_tld sample_whois "user@"))).
  - discriminate.
  - right. reflexivity.
Defined.

Lemma domain_part_between_first_two_ats_witness :
  2 <= count at_sign "a@b@c" /\
  exists pre part rest,
    "a@b@c" = pre ++ "@" ++ part ++ "@" ++ rest /\
    contains at_sign pre = false /\
    contains at_sign part = false /\
    domain_part "a@b@c" = Return part.
Proof.
  split; [simpl; lia|].
  apply (domain_part_between_first_two_ats "a@b@c"). simpl. lia.
Defined.

Lemma absent_fields_rendering_witness :
  @whois_whois sample_whois "thin.org" = Return thin_entry /\
  exists out txt,
    @lookup_and_show sample_whois "thin.org" = (Return tt, out) /\
    In (st_download_button "Download WHOIS report (.txt)" txt "thin.org_whois.txt") out /\
    In (st_write ["**Registrar:**"; em_dash]) out /\
    occurs (nl ++ "Registrar: None" ++ nl) txt /\
    existsb names_name_servers out = false.
Proof.
  split; [reflexivity|].
  destruct (@absent_fields_rendering sample_whois "thin.org" thin_entry eq_refl)
    as (out & txt & Hrun & Hbutton & Hreg & _ & _ & _ & Hns).
  exists out, txt.
  destruct (Hreg (or_intror eq_refl)) as [Hpage Hline].
  destruct (Hns (or_intror eq_refl)) as [Hnone _].
  repeat split; assumption.
Defined.


Lemma report_domain_round_trip_witness :
  contains newline (domain example_record) = false /\
  parse_domain_line (report_txt example_record) = Some "example.com".
Proof.
  split; [reflexivity|].
  exact (report_domain_round_trip example_record eq_refl).
Defined.

(* ================================================================== *)
(** ** Further properties: white space around the address *)

Lemma lstrip_clean (s : string) : starts_clean (lstrip s).
Proof.
  induction s as [|c s IH]; simpl; [exact I|].
  destruct (is_space c) eqn:E; [exact IH | exact E].
Qed.

Lemma lstrip_of_clean (s : string) : starts_clean s -> lstrip s = s.
Proof.
  destruct s as [|c s]; simpl; [reflexivity|]. now intros ->.
Qed.

Lemma rstrip_clean (s : string) : starts_clean s -> starts_clean (rstrip s).
Proof.
  destruct s as [|c s]; simpl; [trivial|]. intros H.
  destruct (rstrip s); [rewrite H|]; exact H.
Qed.

Lemma rstrip_idempotent (s : string) : rstrip (rstrip s) = rstrip s.
Proof.
  induction s as [|c s IH]; simpl; [reflexivity|].
  destruct (rstrip s) as [|a r] eqn:E.
  - destruct (is_space c) eqn:Ec; simpl; [reflexivity | now rewrite Ec].
  - change (rstrip (String c (String a r))) with
      (match rstrip (String a r) with
       | EmptyString => if is_space c then EmptyString else String c EmptyString
       | String x y => String c (String x y)
       end).
    now rewrite IH.
Qed.

Lemma strip_idempotent (s : string) : strip (strip s) = strip s.
Proof.
  unfold strip.
  rewrite (lstrip_of_clean (rstrip (lstrip s))).
  - apply rstrip_idempotent.
  - apply rstrip_clean, lstrip_clean.
Qed.

(** Stripping brings in no character. *)
Lemma lstrip_keeps_absent (c : ascii) (s : string) :
  contains c s = false -> contains c (lstrip s) = false.
Proof.
  induction s as [|a s IH]; simpl; [trivial|].
  intros H. destruct (is_space a); [|exact H].
  apply orb_false_iff in H as [_ H]. now apply IH.
Qed.

Lemma rstrip_keeps_absent (c : ascii) (s : string) :
  contains c s = false -> contains c (rstrip s) = false.
Proof.
  induction s as [|a s IH]; simpl; [trivial|].
  intros H. apply orb_false_iff in H as [Ha Hs]. specialize (IH Hs).
  destruct (rstrip s) as [|b r].
  - destruct (is_space a); simpl; [reflexivity | now rewrite Ha].
  - simpl in IH |- *. now rewrite Ha, IH.
Qed.

Lemma strip_keeps_absent (c : ascii) (s : string) :
  contains c s = false -> contains c (strip s) = false.
Proof.
  intros H. unfold strip. now apply rstrip_keeps_absent, lstrip_keeps_absent.
Qed.

Lemma strip_nonempty (s : string) : strip s <> EmptyString -> s <> EmptyString.
Proof. intros H ->. now apply H. Qed.

(* ================================================================== *)
(** ** Further properties: one press of [Check Domain] *)

Section CheckFacts.
Context {T : TldExtract} {W : Whois}.

(** The two ways through the guarded lookup. *)
Lemma lookup_and_show_cases (name : string) :
  (exists e,
      whois_whois name = Raise e /\
      lookup_and_show name
      = (Return tt, [st_error ("Error fetching WHOIS info: " ++ exn_str e)])) \/
  (exists w info,
      whois_whois name = Return w /\
      get_domain_history name = Return info /\
      domain info = name /\
      lookup_and_show name = (Return tt, snd (show_summary name info))).
Proof.
  destruct (whois_whois name) as [w|e] eqn:Hw.
  - right.
    destruct (get_domain_history_returns _ _ Hw) as (c & u & x & _ & _ & _ & E).
    exists w. eexists. split; [reflexivity|]. split; [exact E|].
    split; [reflexivity|].
    unfold lookup_and_show. rewrite E. unfold call, ui_bind, ui_try.
    rewrite show_summary_widgets. reflexivity.
  - left. exists e. split; [reflexivity|].
    unfold lookup_and_show. now rewrite (get_domain_history_raises _ _ Hw).
Qed.

(** The three ways through the handler of the button. *)
Lemma on_check_cases (email : string) :
  (email = EmptyString /\
   on_check email = (Return tt, [st_error "Please enter an email address."])) \/
  (email <> EmptyString /\
   (extract_domain_from_email (strip email) = Return None \/
    extract_domain_from_email (strip email) = Return (Some EmptyString)) /\
   on_check email
   = (Return tt, [st_error "Could not extract a valid domain from that email."])) \/
  (exists d rest,
      email <> EmptyString /\ d <> EmptyString /\
      extract_domain_from_email (strip email) = Return (Some d) /\
      lookup_and_show d = (Return tt, rest) /\
      on_check email
      = (Return tt, st_success ("Extracted domain: **" ++ d ++ "**") :: rest)).
Proof.
  destruct email as [|c0 email0]; [left; now split|].
  right. set (email := String c0 email0).
  assert (Hne : email <> EmptyString) by discriminate.
  unfold on_check. change (str_truthy email) with true. cbn [negb].
  destruct (extract_domain_cases (strip email))
    as [(e1 & _ & H) | [(part & e2 & _ & _ & H) | (part & ext & _ & _ & H)]].
  - left. rewrite H. repeat split; auto.
  - left. rewrite H. repeat split; auto.
  - rewrite H. destruct (root_domain ext) as [|a d] eqn:E.
    + left. repeat split; auto.
    + right. destruct (lookup_and_show_returns (String a d)) as [rest Hrest].
      exists (String a d), rest. repeat split; try assumption; try discriminate.
      unfold call, ui_bind. cbn [truthy str_truthy emit].
      rewrite Hrest. reflexivity.
Qed.

(** X1.  What one press of the button puts on the page: the request to
    enter an address (exactly for the empty input); or the report that no
    domain could be extracted; or the extracted domain followed by the
    error report of the lookup; or the extracted domain followed by the
    summary of the dictionary built for that very domain.  No exception
    leaves the handler. *)
Theorem on_check_outcomes (email : string) :
  (email = EmptyString /\
   on_check email = (Return tt, [st_error "Please enter an email address."])) \/
  (email <> EmptyString /\
   (extract_domain_from_email (strip email) = Return None \/
    extract_domain_from_email (strip email) = Return (Some EmptyString)) /\
   on_check email
   = (Return tt, [st_error "Could not extract a valid domain from that email."])) \/
  (exists d e,
      email <> EmptyString /\ d <> EmptyString /\
      extract_domain_from_email (strip email) = Return (Some d) /\
      whois_whois d = Raise e /\
      on_check email
      = (Return tt, [ st_success ("Extracted domain: **" ++ d ++ "**");
                      st_error ("Error fetching WHOIS info: " ++ exn_str e) ])) \/
  (exists d info,
      email <> EmptyString /\ d <> EmptyString /\
      extract_domain_from_email (strip email) = Return (Some d) /\
      get_domain_history d = Return info /\
      domain info = d /\
      on_check email
      = (Return tt, st_success ("Extracted domain: **" ++ d ++ "**")
                    :: snd (show_summary d info))).
Proof.
  destruct (on_check_cases email)
    as [H | [H | (d & rest & Hne & Hd & Hx & Hl & Hc)]]; [now left | now right; left |].
  right. right.
  destruct (lookup_and_show_cases d)
    as [(e & Hw & Hl') | (w & info & Hw & Hg & Hdom & Hl')];
    rewrite Hl' in Hl; injection Hl as <-.
  - left. now exists d, e.
  - right. now exists d, info.
Qed.

(** X2.  On every press of the button, at most one error is reported,
    and the report is offered for download exactly when no error is
    reported. *)
Theorem report_offered_iff_no_error (email : string) :
  exists out,
    on_check email = (Return tt, out) /\
    length (filter is_error out) <= 1 /\
    (existsb is_download out = true <-> existsb is_error out = false).
Proof.
  destruct (on_check_cases email)
    as [[_ H] | [(_ & _ & H) | (d & rest & _ & _ & _ & Hl & H)]];
    rewrite H; eexists; (split; [reflexivity|]).
  - simpl. split; [lia | split; discriminate].
  - simpl. split; [lia | split; discriminate].
  - destruct (lookup_and_show_cases d)
      as [(e & _ & Hl') | (w & info & _ & _ & _ & Hl')];
      rewrite Hl' in Hl; injection Hl as <-.
    + simpl. split; [lia | split; discriminate].
    + rewrite show_summary_widgets.
      destruct (name_servers info); simpl; (split; [lia | split; reflexivity]).
Qed.

(** X3.  White space around the address changes nothing: as long as
    something is left after stripping, the page is the one for the
    stripped address. *)
Theorem on_check_ignores_outer_space (email : string) :
  strip email <> EmptyString ->
  on_check email = on_check (strip email).
Proof.
  intros H. pose proof (strip_nonempty _ H) as Hne.
  unfold on_check. rewrite strip_idempotent.
  apply str_truthy_true in H, Hne. now rewrite H, Hne.
Qed.

(** X4.  An input that is not empty and holds no [@] (white space alone,
    for one) is answered with the report that no domain could be
    extracted, not with the request to enter an address. *)
Theorem on_check_without_at (email : string) :
  email <> EmptyString ->
  contains at_sign email = false ->
  on_check email
  = (Return tt, [st_error "Could not extract a valid domain from that email."]).
Proof.
  intros Hne H. unfold on_check.
  apply str_truthy_true in Hne. rewrite Hne. cbn [negb].
  unfold extract_domain_from_email.
  rewrite (domain_part_without_at _ (strip_keeps_absent _ _ H)).
  reflexivity.
Qed.

End CheckFacts.

(* ================================================================== *)
(** ** Further properties: what the extractor looks at *)

Section ExtractorMore.
Context {T : TldExtract}.

(** With an [@], the result is read off the parser's answer for the piece
    after it. *)
Lemma extract_domain_of_part (email part : string) :
  domain_part email = Return part ->
  extract_domain_from_email email
  = match tldextract_extract part with
    | Return ext => Return (Some (root_domain ext))
    | Raise _ => Return None
    end.
Proof.
  intros H. unfold extract_domain_from_email. rewrite H. simpl.
  now destruct (tldextract_extract part).
Qed.

Lemma domain_part_one_at (a part : string) :
  contains at_sign a = false ->
  contains at_sign part = false ->
  domain_part (a ++ "@" ++ part) = Return part.
Proof.
  intros Ha Hp. unfold domain_part.
  change (a ++ "@" ++ part) with (a ++ String at_sign part).
  now rewrite (split_app_sep _ _ _ Ha), (split_single _ _ Hp).
Qed.

Lemma domain_part_two_ats (a part rest : string) :
  contains at_sign a = false ->
  contains at_sign part = false ->
  domain_part (a ++ "@" ++ part ++ "@" ++ rest) = Return part.
Proof.
  intros Ha Hp. unfold domain_part.
  change (a ++ "@" ++ part ++ "@" ++ rest)
    with (a ++ String at_sign (part ++ String at_sign rest)).
  now rewrite (split_app_sep _ _ _ Ha), (split_app_sep _ _ _ Hp).
Qed.

(** X5.  Only the text between the first [@] and the next one (or the
    end) counts: the part before the first [@] and whatever follows a
    second [@] never change the result. *)
Theorem extract_ignores_local_part_and_tail (a b part rest : string) :
  contains at_sign a = false ->
  contains at_sign b = false ->
  contains at_sign part = false ->
  extract_domain_from_email (a ++ "@" ++ part)
  = extract_domain_from_email (b ++ "@" ++ part) /\
  extract_domain_from_email (a ++ "@" ++ part ++ "@" ++ rest)
  = extract_domain_from_email (a ++ "@" ++ part).
Proof.
  intros Ha Hb Hp. split.
  - rewrite (extract_domain_of_part _ part (domain_part_one_at _ _ Ha Hp)).
    now rewrite (extract_domain_of_part _ part (domain_part_one_at _ _ Hb Hp)).
  - rewrite (extract_domain_of_part _ part (domain_part_two_ats _ _ rest Ha Hp)).
    now rewrite (extract_domain_of_part _ part (domain_part_one_at _ _ Ha Hp)).
Qed.

Lemma root_domain_empty_iff (ext : ExtractResult) :
  root_domain ext = EmptyString <->
  ext_domain ext = EmptyString /\ ext_suffix ext = EmptyString.
Proof.
  unfold root_domain. destruct (ext_suffix ext) as [|c s]; simpl.
  - tauto.
  - split; [|intros [_ H]; discriminate].
    destruct (ext_domain ext); discriminate.
Qed.

(** X6.  The function returns the empty string exactly when the parser
    finds neither a label nor a suffix in the piece after the [@].  A
    piece that is all suffix (no label) gives the suffix with a dot in
    front, which is not empty. *)
Theorem extract_empty_iff_no_components (email : string) :
  (extract_domain_from_email email = Return (Some EmptyString) <->
   exists part ext,
     domain_part email = Return part /\
     tldextract_extract part = Return ext /\
     ext_domain ext = EmptyString /\ ext_suffix ext = EmptyString) /\
  (forall part ext,
      domain_part email = Return part ->
      tldextract_extract part = Return ext ->
      ext_domain ext = EmptyString ->
      ext_suffix ext <> EmptyString ->
      extract_domain_from_email email = Return (Some ("." ++ ext_suffix ext))).
Proof.
  split; [split|].
  - intros H.
    destruct (extract_domain_cases email)
      as [(e1 & _ & H') | [(part & e2 & _ & _ & H') | (part & ext & Hp & He & H')]];
      rewrite H' in H; try discriminate.
    injection H as H. apply root_domain_empty_iff in H.
    now exists part, ext.
  - intros (part & ext & Hp & He & Hd & Hs).
    rewrite (extract_domain_of_part _ _ Hp), He.
    repeat f_equal. apply root_domain_empty_iff. now split.
  - intros part ext Hp He Hd Hs.
    rewrite (extract_domain_of_part _ _ Hp), He. unfold root_domain.
    apply str_truthy_true in Hs. now rewrite Hs, Hd.
Qed.

End ExtractorMore.

Section ExtractorOnPage.
Context {T : TldExtract} {W : Whois}.

(** C5, as the script has it.  For an address with at least one [@], the
    piece handed to the parser holds no [@]; the function returns [None]
    only if the parser raises on that piece, and otherwise the string
    made of the parser's label and suffix, which holds no [@] when these
    two hold none.  That string is empty exactly when the parser finds
    neither label nor suffix, and then the page reports that no domain
    could be extracted; only a string that is not empty is taken as the
    extracted domain. *)
Theorem extract_domain_with_at (email : string) :
  contains at_sign email = true ->
  exists part,
    domain_part email = Return part /\
    contains at_sign part = false /\
    (forall e, tldextract_extract part = Raise e ->
       extract_domain_from_email email = Return None) /\
    (forall ext, tldextract_extract part = Return ext ->
       extract_domain_from_email email = Return (Some (root_domain ext)) /\
       (contains at_sign (ext_domain ext) = false ->
        contains at_sign (ext_suffix ext) = false ->
        contains at_sign (root_domain ext) = false) /\
       (root_domain ext = EmptyString <->
        ext_domain ext = EmptyString /\ ext_suffix ext = EmptyString) /\
       (forall raw, raw <> EmptyString -> strip raw = email ->
          (root_domain ext = EmptyString ->
           on_check raw
           = (Return tt,
              [st_error "Could not extract a valid domain from that email."])) /\
          (root_domain ext <> EmptyString ->
           exists rest,
             on_check raw
             = (Return tt,
                st_success ("Extracted domain: **" ++ root_domain ext ++ "**")
                :: rest)))).
Proof.
  intros C.
  destruct (domain_part_cut _ C) as (_ & _ & part & _ & _ & Hp & Hpart & _).
  exists part. split; [exact Hp|]. split; [exact Hpart|]. split.
  - intros e He. now rewrite (extract_domain_of_part _ _ Hp), He.
  - intros ext He.
    assert (Hx : extract_domain_from_email email = Return (Some (root_domain ext)))
      by now rewrite (extract_domain_of_part _ _ Hp), He.
    split; [exact Hx|]. split; [apply root_domain_keeps_no_at|].
    split; [apply root_domain_empty_iff|].
    intros raw Hraw Hstrip. unfold on_check.
    apply str_truthy_true in Hraw. rewrite Hraw, Hstrip, Hx.
    cbn [negb]. unfold call, ui_bind. cbn [truthy]. split.
    + now intros ->.
    + intros Hne. apply str_truthy_true in Hne. rewrite Hne.
      destruct (lookup_and_show_returns (root_domain ext)) as [rest Hrest].
      exists rest. cbn [emit]. now rewrite Hrest.
Qed.

End ExtractorOnPage.

(* ================================================================== *)
(** ** Further properties: the dictionary *)

Lemma strftime_not_empty (d : datetime) : strftime_d_B_Y d <> EmptyString.
Proof. discriminate. Qed.

Lemma format_date_not_empty (x : option date_atom) :
  format_date x <> Some EmptyString.
Proof.
  destruct x as [[s|d]|]; simpl; try discriminate.
  destruct s; simpl; discriminate.
Qed.

Section SummarizerMore.
Context {W : Whois}.

(** A dictionary comes only from an answer of the query. *)
Lemma get_domain_history_inv (name : string) (info : DomainInfo) :
  get_domain_history name = Return info ->
  exists w c u x,
    whois_whois name = Return w /\
    info = {| domain := name;
              registrar := getattr (w_registrar w) None;
              creation_date := format_date c;
              updated_date := format_date u;
              expiry_date := format_date x;
              name_servers := pick_name_servers (w_name_servers w);
              raw_whois := w_str w |}.
Proof.
  intros H. destruct (whois_whois name) as [w|e] eqn:Hw.
  - destruct (get_domain_history_returns _ _ Hw) as (c & u & x & _ & _ & _ & E).
    rewrite E in H. injection H as <-. now exists w, c, u, x.
  - rewrite (get_domain_history_raises _ _ Hw) in H. discriminate.
Qed.

(** X7.  [_pick_date] indexes without a test and raises on an empty list,
    but it is only called on a value that is true, so the only exceptions
    that leave [get_domain_history] are those of the query itself. *)
Theorem get_domain_history_raises_iff (name : string) (e : exn) :
  _pick_date (DateList []) = Raise (IndexError "list index out of range") /\
  (get_domain_history name = Raise e <-> whois_whois name = Raise e).
Proof.
  split; [reflexivity|]. split.
  - intros H. destruct (whois_whois name) as [w|e'] eqn:Hw.
    + destruct (get_domain_history_returns _ _ Hw) as (c & u & x & _ & _ & _ & E).
      rewrite E in H. discriminate.
    + rewrite (get_domain_history_raises _ _ Hw) in H. now injection H as ->.
  - apply get_domain_history_raises.
Qed.

(** X8.  In every dictionary the function builds, a date is null or a
    text that is not empty, so the page shows the dash for a date exactly
    when the date is null or is the dash itself. *)
Theorem date_fields_never_empty (name : string) (info : DomainInfo) :
  get_domain_history name = Return info ->
  (creation_date info <> Some EmptyString /\
   updated_date info <> Some EmptyString /\
   expiry_date info <> Some EmptyString) /\
  (or_dash (creation_date info) = em_dash <->
   creation_date info = None \/ creation_date info = Some em_dash) /\
  (or_dash (updated_date info) = em_dash <->
   updated_date info = None \/ updated_date info = Some em_dash) /\
  (or_dash (expiry_date info) = em_dash <->
   expiry_date info = None \/ expiry_date info = Some em_dash).
Proof.
  intros H.
  destruct (get_domain_history_inv _ _ H) as (w & c & u & x & _ & ->). simpl.
  assert (D : forall o : option string,
             o <> Some EmptyString ->
             (or_dash o = em_dash <-> o = None \/ o = Some em_dash)).
  { intros [[|a s]|] Ho; unfold or_dash; simpl.
    - now contradiction Ho.
    - split; [intros E; right; congruence | intros [E|E]; congruence].
    - split; [now left | reflexivity]. }
  pose proof (format_date_not_empty c). pose proof (format_date_not_empty u).
  pose proof (format_date_not_empty x).
  repeat split; auto; now apply D.
Qed.

End SummarizerMore.

(* ================================================================== *)
(** ** Further properties: the printed date *)

Lemma digit_code (k : Z) :
  nat_of_ascii (digit k) = Z.to_nat (48 + k mod 10).
Proof.
  unfold digit. pose proof (Z.mod_pos_bound k 10 ltac:(lia)) as B.
  apply nat_ascii_embedding. lia.
Qed.

Lemma digit_not_space (k : Z) : Ascii.eqb (digit k) " "%char = false.
Proof.
  apply Ascii.eqb_neq. intros E.
  apply (f_equal nat_of_ascii) in E. rewrite digit_code in E.
  pose proof (Z.mod_pos_bound k 10 ltac:(lia)) as B.
  change (nat_of_ascii " "%char) with 32 in E. lia.
Qed.

Lemma two_digits_no_space (n : Z) : contains " "%char (two_digits n) = false.
Proof. unfold two_digits. simpl. now rewrite !digit_not_space. Qed.

Lemma year_digits_no_space (n : Z) : contains " "%char (year_digits n) = false.
Proof.
  unfold year_digits, two_digits, four_digits.
  destruct (n <? 10)%Z; [|destruct (n <? 100)%Z; [|destruct (n <? 1000)%Z]];
    simpl; now rewrite !digit_not_space.
Qed.

Lemma month_names_no_space :
  Forall (fun n => contains " "%char n = false) month_names.
Proof. repeat constructor. Qed.

Lemma month_name_position (m : Z) :
  (1 <= m <= 12)%Z ->
  exists i, index_of (month_name m) month_names = Some i /\ Z.of_nat (S i) = m.
Proof.
  intros H.
  assert (m = 1 \/ m = 2 \/ m = 3 \/ m = 4 \/ m = 5 \/ m = 6 \/ m = 7 \/
          m = 8 \/ m = 9 \/ m = 10 \/ m = 11 \/ m = 12)%Z as C by lia.
  repeat (destruct C as [-> | C]; [eexists; split; reflexivity|]).
  subst m. eexists; split; reflexivity.
Qed.

(** The printed date reads back to the day, the month and the year. *)
Lemma read_strftime (d : datetime) :
  datetime_valid d ->
  read_d_B_Y (strftime_d_B_Y d) = Some (dt_day d, dt_month d, dt_year d).
Proof.
  intros (Hy & Hm & Hd). unfold read_d_B_Y, strftime_d_B_Y.
  change (two_digits (dt_day d) ++ " " ++ month_name (dt_month d) ++ " "
          ++ year_digits (dt_year d))
    with (two_digits (dt_day d)
          ++ String " "%char (month_name (dt_month d)
                              ++ String " "%char (year_digits (dt_year d)))).
  rewrite (split_app_sep _ _ _ (two_digits_no_space _)).
  assert (Hn : contains " "%char (month_name (dt_month d)) = false).
  { pose proof month_names_no_space as F. rewrite Forall_forall in F.
    apply F. now apply month_name_listed. }
  rewrite (split_app_sep _ _ _ Hn).
  rewrite (split_single _ _ (year_digits_no_space _)).
  destruct (month_name_position _ Hm) as (i & -> & Hi).
  rewrite decimal_two_digits, decimal_year_digits by lia.
  now rewrite Hi.
Qed.

(** X9.  The printed form of a date keeps the whole calendar date: two
    dates printed alike have the same day, month and year (the time of
    day is not printed). *)
Theorem strftime_keeps_calendar_date (d1 d2 : datetime) :
  datetime_valid d1 ->
  datetime_valid d2 ->
  strftime_d_B_Y d1 = strftime_d_B_Y d2 ->
  dt_day d1 = dt_day d2 /\ dt_month d1 = dt_month d2 /\ dt_year d1 = dt_year d2.
Proof.
  intros V1 V2 E.
  pose proof (read_strftime _ V1) as R1.
  pose proof (read_strftime _ V2) as R2.
  rewrite E, R2 in R1. injection R1 as -> -> ->. auto.
Qed.

(* ================================================================== *)
(** ** Further properties: the lines of the report *)

Lemma split_line (p rest : string) :
  contains newline p = false ->
  split newline (p ++ nl ++ rest) = p :: split newline rest.
Proof. intros H. exact (split_app_sep newline p rest H). Qed.

Lemma split_blank_line (rest : string) :
  split newline (nl ++ rest) = EmptyString :: split newline rest.
Proof. exact (split_line EmptyString rest eq_refl). Qed.

Lemma split_field (label v rest : string) :
  contains newline label = false ->
  contains newline v = false ->
  split newline (label ++ v ++ nl ++ rest) = (label ++ v) :: split newline rest.
Proof.
  intros Hl Hv. rewrite <- string_app_assoc.
  apply split_line. now rewrite contains_app, Hl, Hv.
Qed.

(** X10.  When no field of the dictionary holds a newline, the report is
    made of six lines, one per field and in the fixed order, an empty
    line, the line [Raw WHOIS:], and then the lines of the raw text. *)
Theorem report_txt_lines (info : DomainInfo) :
  contains newline (domain info) = false ->
  contains newline (fmt (registrar info)) = false ->
  contains newline (fmt (creation_date info)) = false ->
  contains newline (fmt (updated_date info)) = false ->
  contains newline (fmt (expiry_date info)) = false ->
  Forall (fun ns => contains newline ns = false) (name_servers info) ->
  split newline (report_txt info)
  = List.app
      [ "Domain: " ++ domain info;
        "Registrar: " ++ fmt (registrar info);
        "Creation date: " ++ fmt (creation_date info);
        "Last updated: " ++ fmt (updated_date info);
        "Expiry date: " ++ fmt (expiry_date info);
        "Name servers: " ++ join ", " (name_servers info);
        "";
        "Raw WHOIS:" ]
      (split newline (raw_whois info)).
Proof.
  intros Hd Hr Hc Hu He Hn. unfold report_txt.
  rewrite (split_field "Domain: " _ _ eq_refl Hd).
  rewrite (split_field "Registrar: " _ _ eq_refl Hr).
  rewrite (split_field "Creation date: " _ _ eq_refl Hc).
  rewrite (split_field "Last updated: " _ _ eq_refl Hu).
  rewrite (split_field "Expiry date: " _ _ eq_refl He).
  rewrite (split_field "Name servers: " _ _ eq_refl
             (join_keeps_absent newline ", " _ eq_refl Hn)).
  rewrite split_blank_line.
  rewrite (split_line "Raw WHOIS:" _ eq_refl).
  reflexivity.
Qed.

(* ================================================================== *)
(** ** Further properties: a run of the script *)

Section ScriptFacts.
Context {S : Streamlit} {T : TldExtract} {W : Whois}.

Lemma on_check_returns (email : string) :
  exists out, on_check email = (Return tt, out).
Proof.
  destruct (on_check_cases email)
    as [[_ H] | [(_ & _ & H) | (d & rest & _ & _ & _ & _ & H)]];
    rewrite H; now eexists.
Qed.

(** X11.  A run in which [Clear] is not pressed never ends on an uncaught
    exception: it reaches the last line, with the results (if
    [Check Domain] is pressed) between the top and the foot of the page.
    A run in which [Clear] is pressed stops at line 61 with the top of the
    page alone, whatever the other button says: halted for the rerun
    where Streamlit has [st.experimental_rerun], and on the exception of
    that call, which nothing catches, where it has not. *)
Theorem script_outcomes (email : string) (check clear : bool) :
  (clear = false -> forall e page, script email check clear <> Crashed e page) /\
  (clear = true -> st_experimental_rerun = Rerun_queued ->
   script email check clear = Halted_for_rerun page_top) /\
  (clear = true -> forall e, st_experimental_rerun = Rerun_raises e ->
   script email check clear = Crashed e page_top) /\
  (clear = false -> check = false ->
   script email check clear = Finished (page_top ++ page_foot)) /\
  (clear = false -> check = true ->
   exists out,
     on_check email = (Return tt, out) /\
     script email check clear
     = Finished (page_top ++ map in_results out ++ page_foot)).
Proof.
  destruct (on_check_returns email) as [out Hout].
  unfold script. repeat split.
  - intros ->. destruct check; rewrite ?Hout; discriminate.
  - intros -> Hr. now rewrite Hr.
  - intros -> e Hr. now rewrite Hr.
  - now intros -> ->.
  - intros -> ->. exists out. now rewrite Hout.
Qed.

End ScriptFacts.

(* ================================================================== *)
(** ** The further properties at concrete inputs *)

Lemma on_check_ignores_outer_space_witness :
  strip "  alice@www.example.com " = "alice@www.example.com" /\
  @on_check sample_tld sample_whois "  alice@www.example.com "
  = @on_check sample_tld sample_whois "alice@www.example.com".
Proof.
  split; [reflexivity|].
  apply (@on_check_ignores_outer_space sample_tld sample_whois
           "  alice@www.example.com "). discriminate.
Defined.

Lemma on_check_without_at_witness :
  "   " <> EmptyString /\
  contains at_sign "   " = false /\
  @on_check sample_tld sample_whois "   "
  = (Return tt, [st_error "Could not extract a valid domain from that email."]).
Proof.
  split; [discriminate|]. split; [reflexivity|].
  apply (@on_check_without_at sample_tld sample_whois "   ");
    [discriminate | reflexivity].
Defined.

Lemma extract_ignores_local_part_and_tail_witness :
  @extract_domain_from_email sample_tld "alice@example.com"
  = @extract_domain_from_email sample_tld "bob@example.com" /\
  @extract_domain_from_email sample_tld "alice@example.com@evil.org"
  = @extract_domain_from_email sample_tld "alice@example.com".
Proof.
  exact (@extract_ignores_local_part_and_tail sample_tld
           "alice" "bob" "example.com" "evil.org" eq_refl eq_refl eq_refl).
Defined.

Lemma extract_empty_iff_no_components_witness :
  @domain_part "a@com" = Return "com" /\
  ext_domain (extract "com") = EmptyString /\
  ext_suffix (extract "com") = "com" /\
  @extract_domain_from_email sample_tld "a@com" = Return (Some ".com").
Proof.
  split; [reflexivity|]. split; [reflexivity|]. split; [reflexivity|].
  apply (proj2 (@extract_empty_iff_no_components sample_tld "a@com")
           "com" (extract "com")); try reflexivity. discriminate.
Defined.

Lemma get_domain_history_raises_iff_witness :
  @whois_whois sample_whois "nowhere.net"
  = Raise (LibraryError "PywhoisError" "No whois server is known for this kind of object.") /\
  @get_domain_history sample_whois "nowhere.net"
  = Raise (LibraryError "PywhoisError" "No whois server is known for this kind of object.").
Proof.
  split; [reflexivity|].
  apply (proj2 (@get_domain_history_raises_iff sample_whois "nowhere.net" _)).
  reflexivity.
Defined.

Lemma date_fields_never_empty_witness :
  exists info,
    @get_domain_history (always blank_date_entry) "example.com" = Return info /\
    creation_date info <> Some EmptyString /\
    or_dash (creation_date info) = em_dash.
Proof.
  eexists. split; [reflexivity|].
  destruct (@date_fields_never_empty (always blank_date_entry) "example.com" _ eq_refl)
    as ((Hc & _ & _) & Hdash & _).
  split; [exact Hc|]. apply Hdash. left. reflexivity.
Defined.

Lemma strftime_keeps_calendar_date_witness :
  strftime_d_B_Y (mkDatetime 1995 8 14 4 0 0)
  = strftime_d_B_Y (mkDatetime 1995 8 14 23 59 59) /\
  dt_day (mkDatetime 1995 8 14 4 0 0) = 14%Z.
Proof.
  split; [reflexivity|].
  apply (@strftime_keeps_calendar_date
           (mkDatetime 1995 8 14 4 0 0) (mkDatetime 1995 8 14 23 59 59));
    [unfold datetime_valid; simpl; lia | unfold datetime_valid; simpl; lia | reflexivity].
Defined.

Lemma report_txt_lines_witness :
  split newline (report_txt example_record)
  = [ "Domain: example.com";
      "Registrar: Example Registrar";
      "Creation date: 14 August 1995";
      "Last updated: None";
      "Expiry date: None";
      "Name servers: ns1.example.com, ns2.example.com";
      "";
      "Raw WHOIS:";
      "domain_name: EXAMPLE.COM" ].
Proof.
  apply (report_txt_lines example_record); try reflexivity.
  repeat constructor.
Defined.

Lemma script_outcomes_witness :
  @script streamlit_with_rerun sample_tld sample_whois "alice@example.com" true true
  = Halted_for_rerun page_top /\
  @script streamlit_without_rerun sample_tld sample_whois "alice@example.com" true true
  = Crashed (LibraryError "AttributeError"
               "module 'streamlit' has no attribute 'experimental_rerun'") page_top /\
  @script streamlit_without_rerun sample_tld sample_whois "alice@example.com" false false
  = Finished (page_top ++ page_foot).
Proof.
  split; [|split].
  - apply (proj1 (proj2 (@script_outcomes streamlit_with_rerun sample_tld sample_whois
                           "alice@example.com" true true))); reflexivity.
  - apply (proj1 (proj2 (proj2 (@script_outcomes streamlit_without_rerun sample_tld
                                  sample_whois "alice@example.com" true true))));
      reflexivity.
  - apply (proj1 (proj2 (proj2 (proj2 (@script_outcomes streamlit_without_rerun
                                         sample_tld sample_whois
                                         "alice@example.com" false false)))));
      reflexivity.
Defined.

Lemma extract_domain_with_at_witness :
  contains at_sign "alice@example.com" = true /\
  @extract_domain_from_email sample_tld "alice@example.com"
  = Return (Some "example.com") /\
  contains at_sign "example.com" = false.
Proof.
  split; [reflexivity|].
  destruct (@extract_domain_with_at sample_tld sample_whois
              "alice@example.com" eq_refl) as (part & Hp & _ & _ & Hret).
  injection Hp as <-.
  destruct (Hret (extract "example.com") eq_refl) as (Hx & Hno & _).
  split; [exact Hx | exact (Hno eq_refl eq_refl)].
Defined.
